(** * Performance analytics of a back-test

    A shallow embedding of [src/Performance_Analysis.py]: the class
    [PerformanceAnalysis], which derives a daily return series and a
    cumulative series from an account ledger and extracts scalar metrics
    from them.

    - Python floats and the float64 cells of a pandas [Series] are IEEE 754
      binary64 numbers: [spec_float] of the Standard Library at precision 53
      and maximal exponent 1024, rounding to nearest even.
    - A raised exception is a value [Raise e] of the [result] type; methods
      that assign to [self] return the updated object next to their value.
    - [print] calls are diagnostic only and are left out. *)

From Stdlib Require Import ZArith Bool String Lia List Permutation.
From Stdlib Require Import Floats.SpecFloat.
Import ListNotations.

(** ** Binary64 arithmetic *)

Module F64.

Definition prec : Z := 53.
Definition emax : Z := 1024.

Definition float : Type := spec_float.

Definition nan : float := S754_nan.
Definition zero : float := S754_zero false.
Definition inf : float := S754_infinity false.

Definition add : float -> float -> float := SFadd prec emax.
Definition sub : float -> float -> float := SFsub prec emax.
Definition mul : float -> float -> float := SFmul prec emax.
Definition div : float -> float -> float := SFdiv prec emax.
Definition sqrt : float -> float := SFsqrt prec emax.
Definition opp : float -> float := SFopp.
Definition abs : float -> float := SFabs.

Definition eqb : float -> float -> bool := SFeqb.
Definition ltb : float -> float -> bool := SFltb.
Definition leb : float -> float -> bool := SFleb.

Definition is_nan (x : float) : bool :=
  match x with S754_nan => true | _ => false end.

Definition is_finite (x : float) : bool :=
  match x with
  | S754_zero _ | S754_finite _ _ _ => true
  | _ => false
  end.

(** Conversion of a Python [int]; exact below 2^53. *)
Definition of_Z (z : Z) : float := binary_normalize prec emax z 0 false.

(** The literals of the source.  A decimal literal denotes the binary64
    number nearest to it, which is the correctly rounded quotient of its
    numerator and its power of ten. *)
Definition one : float := Eval vm_compute in of_Z 1.
Definition hundred : float := Eval vm_compute in of_Z 100.
Definition lit_252 : float := Eval vm_compute in of_Z 252.
Definition lit_1e_6 : float := Eval vm_compute in div (of_Z 1) (of_Z 1000000).
Definition lit_0_11 : float := Eval vm_compute in div (of_Z 11) (of_Z 100).
Definition lit_0_02 : float := Eval vm_compute in div (of_Z 2) (of_Z 100).

End F64.

Abbreviation float := F64.float.

Declare Scope f64_scope.
Delimit Scope f64_scope with f64.
Infix "+" := F64.add : f64_scope.
Infix "-" := F64.sub : f64_scope.
Infix "*" := F64.mul : f64_scope.
Infix "/" := F64.div : f64_scope.
Infix "==" := F64.eqb (at level 70, no associativity) : f64_scope.
Infix "<?" := F64.ltb : f64_scope.
Infix "<=?" := F64.leb : f64_scope.

(** ** Exceptions *)

Inductive exn : Type :=
| ValueError (msg : string)
| ZeroDivisionError
| OverflowError
| FloatingPointError
| TypeError
| AttributeError (name : string).

Inductive result (A : Type) : Type :=
| Ok (a : A)
| Raise (e : exn).

Arguments Ok {A} a.
Arguments Raise {A} e.

Definition bind {A B : Type} (c : result A) (k : A -> result B) : result B :=
  match c with
  | Ok a => k a
  | Raise e => Raise e
  end.

Notation "x <- c ;; k" := (bind c (fun x => k))
  (at level 61, c at next level, right associativity).
Notation "' p <- c ;; k" := (bind c (fun x => let 'p := x in k))
  (at level 61, p pattern, c at next level, right associativity).

Definition raises {A : Type} (c : result A) : Prop :=
  exists e, c = Raise e.

(** [x / y] on Python floats: a zero divisor of either sign raises, whatever
    the dividend. *)
Definition py_truediv (x y : float) : result float :=
  if (y == F64.zero)%f64 then Raise ZeroDivisionError else Ok (x / y)%f64.

(** ** The account ledger *)

(** A calendar date, as its ordinal. *)
Definition date : Type := Z.

(** A trade record: a dict with an [action] key and, optionally, the keys
    [profit] and [return_rate]. *)
Record Trade : Type := {
  action : string;
  profit : option float;
  return_rate : option float
}.

Record Account : Type := {
  dates : list date;
  total_assets : list float;
  trade_history : list Trade
}.

(** ** The pandas operations the class uses *)

Module pd.

(** A float64 [Series]: its index and its values. *)
Record Series : Type := { index : list date; values : list float }.

Definition len (s : Series) : nat := length (values s).

Definition map_values (f : float -> float) (s : Series) : Series :=
  {| index := index s; values := map f (values s) |}.

(** [pd.Series(data, index=idx)] on two lists. *)
Definition mk_Series (data : list float) (idx : list date) : result Series :=
  if Nat.eqb (length data) (length idx)
  then Ok {| index := idx; values := data |}
  else Raise (ValueError "Length of values does not match length of index").

(** [s.replace(0, np.nan)]: every cell equal to 0 (of either sign). *)
Definition replace_cell (x : float) : float :=
  if (x == F64.zero)%f64 then F64.nan else x.

Definition replace_zero_nan (s : Series) : Series :=
  map_values replace_cell s.

(** [s.fillna(method='ffill')]: a missing cell takes the last value that
    is not missing; leading missing cells stay missing. *)
Fixpoint ffill_from (last : option float) (xs : list float) : list float :=
  match xs with
  | [] => []
  | x :: xs' =>
      if F64.is_nan x
      then match last with
           | Some v => v :: ffill_from last xs'
           | None => x :: ffill_from None xs'
           end
      else x :: ffill_from (Some x) xs'
  end.

Definition ffill (s : Series) : Series :=
  {| index := index s; values := ffill_from None (values s) |}.

(** [s.fillna(v)]. *)
Definition fillna (v : float) (s : Series) : Series :=
  map_values (fun x => if F64.is_nan x then v else x) s.

(** [s.clip(lower=lo)]: cells that are not [>= lo] become [lo]; missing
    cells stay missing. *)
Definition clip_lower_cell (lo x : float) : float :=
  if F64.is_nan x then x else if (lo <=? x)%f64 then x else lo.

Definition clip_lower (lo : float) (s : Series) : Series :=
  map_values (clip_lower_cell lo) s.

(** [s.clip(lower=lo, upper=hi)]: the upper bound is applied where the
    cell is not [<= hi], then the lower bound where the cell is not
    [>= lo]; missing cells stay missing. *)
Definition clip_cell (lo hi x : float) : float :=
  if F64.is_nan x then x
  else
    let r := if (x <=? hi)%f64 then x else hi in
    if (lo <=? x)%f64 then r else lo.

Definition clip (lo hi : float) (s : Series) : Series :=
  map_values (clip_cell lo hi) s.

(** [s.shift(1)]. *)
Definition shift1 (xs : list float) : list float :=
  match xs with
  | [] => []
  | _ :: _ => F64.nan :: removelast xs
  end.

Fixpoint map2 (f : float -> float -> float) (xs ys : list float) : list float :=
  match xs, ys with
  | x :: xs', y :: ys' => f x y :: map2 f xs' ys'
  | _, _ => []
  end.

(** [s.pct_change()]: missing cells are padded forward, then each cell is
    divided by its predecessor and 1 is subtracted.  The division is
    numpy's, which does not raise. *)
Definition pct_change (s : Series) : Series :=
  let data := ffill_from None (values s) in
  {| index := index s;
     values := map2 (fun x y => x / y - F64.one)%f64 data (shift1 data) |}.

(** [s.cumprod()]: the running product, left to right; a missing cell
    stays missing and counts as 1 in the product. *)
Fixpoint cumprod_from (acc : float) (xs : list float) : list float :=
  match xs with
  | [] => []
  | x :: xs' =>
      if F64.is_nan x
      then
        let acc' := (acc * F64.one)%f64 in
        F64.nan :: cumprod_from acc' xs'
      else
        let acc' := (acc * x)%f64 in
        acc' :: cumprod_from acc' xs'
  end.

Definition np_cumprod (xs : list float) : list float :=
  match xs with
  | [] => []
  | x :: xs' =>
      if F64.is_nan x
      then F64.nan :: cumprod_from F64.one xs'
      else x :: cumprod_from x xs'
  end.

End pd.

Abbreviation Series := pd.Series.

(** ** The parts of the Python runtime that are taken as given *)

(** Functions of CPython, numpy and pandas whose results depend on the C
    library or on the order of summation.  The metrics are stated for every
    such runtime. *)
Class Runtime : Type := {
  (** the values of Python's [complex] and its arithmetic with a real
      right operand *)
  complex : Type;
  complex_sub : complex -> float -> complex;
  complex_mul : complex -> float -> complex;
  complex_div : complex -> float -> result complex;
  complex_abs : complex -> result float;
  (** [x ** y] on floats: a float, a complex, or [OverflowError] *)
  float_pow : float -> float -> result (float + complex);
  (** [round(x, ndigits)] on a float or a numpy float64 *)
  float_round : float -> Z -> float;
  (** [Series.std()] (sample standard deviation) and [Series.mean()],
      both skipping missing cells *)
  nanstd : list float -> float;
  nanmean : list float -> float
}.

Section Numbers.

Context {rt : Runtime}.

(** A Python number that a metric can evaluate to: [**] on a negative base
    and a fractional exponent yields a [complex]. *)
Inductive pynum : Type :=
| PyFloat (x : float)
| PyComplex (z : complex).

Definition num_sub (a : pynum) (y : float) : pynum :=
  match a with
  | PyFloat x => PyFloat (x - y)%f64
  | PyComplex z => PyComplex (complex_sub z y)
  end.

Definition num_mul (a : pynum) (y : float) : pynum :=
  match a with
  | PyFloat x => PyFloat (x * y)%f64
  | PyComplex z => PyComplex (complex_mul z y)
  end.

Definition num_div (a : pynum) (y : float) : result pynum :=
  match a with
  | PyFloat x => q <- py_truediv x y ;; Ok (PyFloat q)
  | PyComplex z => q <- complex_div z y ;; Ok (PyComplex q)
  end.

Definition num_abs (a : pynum) : result float :=
  match a with
  | PyFloat x => Ok (F64.abs x)
  | PyComplex z => complex_abs z
  end.

Definition num_pow (x y : float) : result pynum :=
  r <- float_pow x y ;;
  Ok match r with inl v => PyFloat v | inr z => PyComplex z end.

(** [round(a, ndigits)]: [complex] has no [__round__]. *)
Definition py_round (a : pynum) (ndigits : Z) : result float :=
  match a with
  | PyFloat x => Ok (float_round x ndigits)
  | PyComplex _ => Raise TypeError
  end.

End Numbers.

(** ** The class [PerformanceAnalysis] *)

Record PerformanceAnalysis : Type := {
  account : Account;
  strategy_returns : option Series;
  cumulative_returns : option Series;
  cumulative_net_assets : option Series
}.

Definition set_strategy_returns (self : PerformanceAnalysis) (s : Series) :=
  {| account := account self;
     strategy_returns := Some s;
     cumulative_returns := cumulative_returns self;
     cumulative_net_assets := cumulative_net_assets self |}.

Definition set_cumulative (self : PerformanceAnalysis) (net ret : Series) :=
  {| account := account self;
     strategy_returns := strategy_returns self;
     cumulative_returns := Some ret;
     cumulative_net_assets := Some net |}.

(** [any(asset <= 0 for asset in self.account.total_assets)] *)
Definition any_nonpositive (assets : list float) : bool :=
  existsb (fun asset => (asset <=? F64.zero)%f64) assets.

(** Lines 28-32 of [calculate_returns]: the series the percentage change is
    taken of. *)
Definition sanitized_assets (assets : list float) (s : Series) : Series :=
  if any_nonpositive assets
  then pd.clip_lower F64.lit_1e_6 (pd.ffill (pd.replace_zero_nan s))
  else s.

Definition calculate_returns (self : PerformanceAnalysis)
  : result (Series * PerformanceAnalysis) :=
  let assets := total_assets (account self) in
  if Nat.eqb (length assets) 0
  then Raise (ValueError "没有可用的资产数据用于计算收益率")
  else
    total_assets_series <- pd.mk_Series assets (dates (account self)) ;;
    let total_assets_series := sanitized_assets assets total_assets_series in
    let r := pd.fillna F64.zero (pd.pct_change total_assets_series) in
    let r := pd.clip (F64.opp F64.lit_0_11) F64.lit_0_11 r in
    Ok (r, set_strategy_returns self r).

(** [if self.strategy_returns is None: self.calculate_returns()] *)
Definition ensure_returns (self : PerformanceAnalysis)
  : result (Series * PerformanceAnalysis) :=
  match strategy_returns self with
  | None => calculate_returns self
  | Some r => Ok (r, self)
  end.

Section Compounding.

(** [Series.cumprod] on the values of [1 + self.strategy_returns].  With
    numpy's default error state it is [pd.np_cumprod] and cannot raise;
    with the error state set to raise, an overflow is a
    [FloatingPointError]. *)
Variable cumprod : list float -> result (list float).

Definition compound (r : Series) : result Series :=
  net <- cumprod (map (fun x => F64.one + x)%f64 (pd.values r)) ;;
  Ok {| pd.index := pd.index r; pd.values := net |}.

Definition minus_one (s : Series) : Series :=
  pd.map_values (fun x => x - F64.one)%f64 s.

(** The first definition of [calculate_cumulative_returns] in the class
    body (lines 48-70).  The definition that follows it rebinds the name,
    so no call reaches this one. *)
Definition calculate_cumulative_returns_shadowed (self : PerformanceAnalysis)
  : result (Series * PerformanceAnalysis) :=
  '(r, self) <- ensure_returns self ;;
  match compound r with
  | Ok net =>
      let ret := minus_one net in
      Ok (ret, set_cumulative self net ret)
  | Raise _ =>
      let net := {| pd.index := pd.index r;
                    pd.values := repeat F64.one (pd.len r) |} in
      let ret := {| pd.index := pd.index r;
                    pd.values := repeat F64.zero (pd.len r) |} in
      Ok (ret, set_cumulative self net ret)
  end.

(** The second definition (lines 72-81), the one the class ends up
    with. *)
Definition calculate_cumulative_returns_with (self : PerformanceAnalysis)
  : result (Series * PerformanceAnalysis) :=
  '(r, self) <- ensure_returns self ;;
  net <- compound r ;;
  let ret := minus_one net in
  Ok (ret, set_cumulative self net ret).

End Compounding.

(** numpy's default error state. *)
Definition cumprod_default (xs : list float) : result (list float) :=
  Ok (pd.np_cumprod xs).

(** numpy with [np.seterr(over='raise')]: a product of two finite numbers
    that rounds to an infinity is a [FloatingPointError]. *)
Definition overflowed (x y : float) : bool :=
  match x, y, (x * y)%f64 with
  | S754_finite _ _ _, S754_finite _ _ _, S754_infinity _ => true
  | _, _, _ => false
  end.

Fixpoint overflows_from (acc : float) (xs : list float) : bool :=
  match xs with
  | [] => false
  | x :: xs' =>
      let x := if F64.is_nan x then F64.one else x in
      overflowed acc x || overflows_from (acc * x)%f64 xs'
  end.

Definition cumprod_checked (xs : list float) : result (list float) :=
  let overflow :=
    match xs with
    | [] => false
    | x :: xs' => overflows_from (if F64.is_nan x then F64.one else x) xs'
    end in
  if overflow then Raise FloatingPointError else Ok (pd.np_cumprod xs).

Definition calculate_cumulative_returns :=
  calculate_cumulative_returns_with cumprod_default.

(** [__init__] *)
Definition fresh (acc : Account) : PerformanceAnalysis :=
  {| account := acc;
     strategy_returns := None;
     cumulative_returns := None;
     cumulative_net_assets := None |}.

Definition init (account : Account) : result PerformanceAnalysis :=
  let self := fresh account in
  '(_, self) <- calculate_returns self ;;
  '(_, self) <- calculate_cumulative_returns self ;;
  Ok self.

Definition get_total_return (self : PerformanceAnalysis) : result float :=
  let assets := total_assets (account self) in
  if Nat.ltb (length assets) 2 then Ok F64.zero
  else
    let initial_value := nth 0 assets F64.nan in
    let final_value := last assets F64.nan in
    q <- py_truediv final_value initial_value ;;
    Ok ((q - F64.one) * F64.hundred)%f64.

(** [self.get_max_drawdown()].  The class has no base class and defines no
    attribute of that name, in its body or in [__init__], so the lookup
    raises [AttributeError]. *)
Definition get_max_drawdown (self : PerformanceAnalysis) : result float :=
  Raise (AttributeError "get_max_drawdown").

Section Metrics.

Context {rt : Runtime}.

Definition get_annualized_return (self : PerformanceAnalysis) : result pynum :=
  if Nat.ltb (length (dates (account self))) 2 then Ok (PyFloat F64.zero)
  else
    r <- get_total_return self ;;
    let total_return := (r / F64.hundred)%f64 in
    let trading_days := length (dates (account self)) in
    if Nat.leb trading_days 1 then Ok (PyFloat F64.zero)
    else
      p <- num_pow (F64.one + total_return)%f64
                   (F64.lit_252 / F64.of_Z (Z.of_nat trading_days))%f64 ;;
      let annualized_return := num_sub p F64.one in
      Ok (num_mul annualized_return F64.hundred).

Definition get_sharpe_ratio (risk_free_rate : float) (self : PerformanceAnalysis)
  : result (pynum * PerformanceAnalysis) :=
  '(returns, self) <- ensure_returns self ;;
  if Nat.ltb (pd.len returns) 2 then Ok (PyFloat F64.zero, self)
  else
    a <- get_annualized_return self ;;
    annual_return <- num_div a F64.hundred ;;
    let annual_volatility :=
      (nanstd (pd.values returns) * F64.sqrt F64.lit_252)%f64 in
    if (annual_volatility == F64.zero)%f64 then Ok (PyFloat F64.zero, self)
    else
      sharpe_ratio <- num_div (num_sub annual_return risk_free_rate)
                              annual_volatility ;;
      Ok (sharpe_ratio, self).

Definition get_volatility (self : PerformanceAnalysis)
  : result (float * PerformanceAnalysis) :=
  '(returns, self) <- ensure_returns self ;;
  if Nat.ltb (pd.len returns) 2 then Ok (F64.zero, self)
  else
    Ok ((nanstd (pd.values returns) * F64.sqrt F64.lit_252 * F64.hundred)%f64,
        self).

Definition get_calmar_ratio (self : PerformanceAnalysis) : result float :=
  a <- get_annualized_return self ;;
  annual_return <- num_abs a ;;
  d <- get_max_drawdown self ;;
  let max_dd := F64.abs d in
  if (max_dd == F64.zero)%f64 then Ok F64.zero
  else Ok (annual_return / max_dd)%f64.

End Metrics.

(** *** Trade statistics

    [pd.DataFrame(trade_history)] has one row per record and one column per
    key that occurs in some record; a record without the key has a missing
    cell in that column. *)

Definition has_column (key : Trade -> option float) (trades : list Trade) : bool :=
  existsb (fun t => match key t with Some _ => true | None => false end) trades.

Definition cell (key : Trade -> option float) (t : Trade) : float :=
  match key t with Some v => v | None => F64.nan end.

Definition is_action (a : string) (t : Trade) : bool := String.eqb (action t) a.

Definition get_trade_count (self : PerformanceAnalysis) : Z :=
  Z.of_nat (length (trade_history (account self))).

Definition get_buy_sell_count (self : PerformanceAnalysis) : Z * Z :=
  match trade_history (account self) with
  | [] => (0%Z, 0%Z)
  | trades =>
      (Z.of_nat (length (filter (is_action "buy") trades)),
       Z.of_nat (length (filter (is_action "sell") trades)))
  end.

Definition get_win_rate (self : PerformanceAnalysis) : float :=
  match trade_history (account self) with
  | [] => F64.zero
  | trades =>
      let sell_trades := filter (is_action "sell") trades in
      match sell_trades with
      | [] => F64.zero
      | _ :: _ =>
          if has_column profit trades
          then
            let winning_trades :=
              length (filter (fun t => (F64.zero <? cell profit t)%f64) sell_trades) in
            (F64.of_Z (Z.of_nat winning_trades)
               / F64.of_Z (Z.of_nat (length sell_trades))
               * F64.hundred)%f64
          else F64.zero
      end
  end.

Section Summary.

Context {rt : Runtime}.

Definition get_avg_trade_return (self : PerformanceAnalysis) : float :=
  match trade_history (account self) with
  | [] => F64.zero
  | trades =>
      if has_column return_rate trades
      then (nanmean (map (cell return_rate) trades) * F64.hundred)%f64
      else F64.zero
  end.

(** The issues [validate_data] reports; the source's texts are
    "没有资产数据", "存在非正资产值" and "日期和资产数据长度不匹配". *)
Inductive issue : Type :=
| no_asset_data
| nonpositive_asset_values
| length_mismatch.

Definition validate_data (self : PerformanceAnalysis) : list issue :=
  let assets := total_assets (account self) in
  (if Nat.eqb (length assets) 0 then [no_asset_data] else [])
    ++ (if any_nonpositive assets then [nonpositive_asset_values] else [])
    ++ (if Nat.eqb (length (dates (account self))) (length assets)
        then [] else [length_mismatch]).

Inductive value : Type :=
| VFloat (x : float)
| VInt (n : Z).

Definition get_performance_summary (self : PerformanceAnalysis)
  : result (list (string * value)) :=
  let data_issues := validate_data self in
  total_return <- get_total_return self ;;
  annual_return <- get_annualized_return self ;;
  '(sharpe_ratio, self) <- get_sharpe_ratio F64.lit_0_02 self ;;
  '(volatility, self) <- get_volatility self ;;
  calmar_ratio <- get_calmar_ratio self ;;
  let trade_count := get_trade_count self in
  let '(buy_count, sell_count) := get_buy_sell_count self in
  let win_rate := get_win_rate self in
  let avg_trade_return := get_avg_trade_return self in
  r_annual <- py_round annual_return 2 ;;
  r_sharpe <- py_round sharpe_ratio 3 ;;
  Ok [ ("总收益率 (%)"%string, VFloat (float_round total_return 2));
       ("年化收益率 (%)"%string, VFloat r_annual);
       ("夏普比率"%string, VFloat r_sharpe);
       ("年化波动率 (%)"%string, VFloat (float_round volatility 2));
       ("Calmar比率"%string, VFloat (float_round calmar_ratio 3));
       ("总交易次数"%string, VInt trade_count);
       ("买入次数"%string, VInt buy_count);
       ("卖出次数"%string, VInt sell_count);
       ("胜率 (%)"%string, VFloat (float_round win_rate 2));
       ("平均交易收益率 (%)"%string, VFloat (float_round avg_trade_return 2)) ].

End Summary.

(** ** The specification's wording, for comparison with the code *)

(** Return derivation, as the specification words it: a non-positive asset
    value is replaced by the most recent preceding positive value, and by
    the epsilon 1e-6 when no positive value precedes it. *)
Fixpoint spec_forward_fill_from (last : option float) (xs : list float)
  : list float :=
  match xs with
  | [] => []
  | x :: xs' =>
      if (x <=? F64.zero)%f64
      then match last with
           | Some v => v
           | None => F64.lit_1e_6
           end :: spec_forward_fill_from last xs'
      else x :: spec_forward_fill_from (if F64.is_nan x then last else Some x) xs'
  end.

Definition spec_forward_fill (assets : list float) : list float :=
  spec_forward_fill_from None assets.

(** The maximum drawdown as the specification defines it: the maximum
    peak-to-trough decline of the cumulative net value, the minimum over
    [i] of [value[i] / running_max(value[0..i]) - 1], a fraction that is
    negative or zero. *)
Definition list_max (xs : list float) : float :=
  match xs with
  | [] => F64.zero
  | x :: xs' => fold_left (fun m y => if (m <? y)%f64 then y else m) xs' x
  end.

Definition list_min (xs : list float) : float :=
  match xs with
  | [] => F64.zero
  | x :: xs' => fold_left (fun m y => if (y <? m)%f64 then y else m) xs' x
  end.

Definition running_max (value : list float) (i : nat) : float :=
  list_max (firstn (S i) value).

Definition drawdown_at (value : list float) (i : nat) : float :=
  (nth i value F64.nan / running_max value i - F64.one)%f64.

Definition max_drawdown_of (value : list float) : float :=
  list_min (map (drawdown_at value) (seq 0 (length value))).

(** The Calmar ratio as the specification defines it:
    [abs(annualized_return) / abs(max_drawdown)], and 0.0 when the maximum
    drawdown is 0. *)
Definition spec_calmar_ratio (annualized_return : float) (value : list float)
  : float :=
  if (F64.abs (max_drawdown_of value) == F64.zero)%f64 then F64.zero
  else (F64.abs annualized_return / F64.abs (max_drawdown_of value))%f64.

(** The product of the first [i + 1] entries of a list, in index order. *)
Definition prod_upto (xs : list float) (i : nat) : float :=
  match firstn (S i) xs with
  | [] => F64.one
  | x :: xs' => fold_left F64.mul xs' x
  end.

(** The Python expression [(final / initial - 1) * 100]. *)
Definition total_return_formula (final initial : float) : result float :=
  q <- py_truediv final initial ;;
  Ok ((q - F64.one) * F64.hundred)%f64.

(** The win rate as the specification words it: among the sell trades that
    carry a [profit] field, the percentage whose profit is positive; 0.0
    when there is no such trade. *)
Definition spec_win_rate (trades : list Trade) : float :=
  let with_profit :=
    filter (fun t => match profit t with Some _ => true | None => false end)
           (filter (is_action "sell") trades) in
  match with_profit with
  | [] => F64.zero
  | _ :: _ =>
      let winning :=
        length (filter (fun t => (F64.zero <? cell profit t)%f64) with_profit) in
      (F64.of_Z (Z.of_nat winning) / F64.of_Z (Z.of_nat (length with_profit))
         * F64.hundred)%f64
  end.

(** ** Ledgers used in the examples *)

Definition ledger (ds : list date) (assets : list Z) (trades : list Trade)
  : Account :=
  {| dates := ds; total_assets := map F64.of_Z assets; trade_history := trades |}.

Definition sell (p : option Z) : Trade :=
  {| action := "sell"; profit := option_map F64.of_Z p; return_rate := None |}.

(** The series [calculate_returns] and [calculate_cumulative_returns] assign
    on a ledger whose dates and asset values have the same length. *)
Definition daily_returns (acc : Account) : Series :=
  let s := {| pd.index := dates acc; pd.values := total_assets acc |} in
  pd.clip (F64.opp F64.lit_0_11) F64.lit_0_11
    (pd.fillna F64.zero (pd.pct_change (sanitized_assets (total_assets acc) s))).

Definition net_values (r : Series) : Series :=
  {| pd.index := pd.index r;
     pd.values := pd.np_cumprod (map (fun x => F64.one + x)%f64 (pd.values r)) |}.

Definition analyzed (acc : Account) : PerformanceAnalysis :=
  let r := daily_returns acc in
  {| account := acc;
     strategy_returns := Some r;
     cumulative_returns := Some (minus_one (net_values r));
     cumulative_net_assets := Some (net_values r) |}.

(** ** A runtime for evaluating the model on examples

    The statements below hold for every [Runtime].  This instance makes
    them evaluable on concrete ledgers.  [round] follows CPython (the
    decimal digits of the exact value are rounded half to even and the
    result is read back correctly rounded); complex arithmetic promotes the
    real operand to a complex number with imaginary part 0.0; [**] is the
    exact power rounded once when the exponent is a non-negative integer,
    which the C library's [pow] approximates to the last place, and is not
    covered for other exponents, where this instance reports
    [OverflowError]; mean and standard deviation add the cells from left to
    right, where numpy adds pairwise from eight cells on. *)

Module ExampleRuntime.

Definition complex : Type := float * float.

Definition complex_sub (z : complex) (y : float) : complex :=
  (fst z - y, snd z - F64.zero)%f64.

Definition complex_mul (z : complex) (y : float) : complex :=
  (fst z * y - snd z * F64.zero, fst z * F64.zero + snd z * y)%f64.

Definition complex_div (z : complex) (y : float) : result complex :=
  if (y == F64.zero)%f64 then Raise ZeroDivisionError
  else
    let ratio := (F64.zero / y)%f64 in
    let denom := (y + F64.zero * ratio)%f64 in
    Ok ((fst z + snd z * ratio) / denom, (snd z - fst z * ratio) / denom)%f64.

Definition complex_abs (z : complex) : result float :=
  let r := F64.sqrt (fst z * fst z + snd z * snd z)%f64 in
  match r with
  | S754_infinity _ =>
      if F64.is_finite (fst z) && F64.is_finite (snd z)
      then Raise OverflowError else Ok r
  | _ => Ok r
  end.

(** The integer a float denotes, when it denotes one. *)
Definition integral (y : float) : option Z :=
  match y with
  | S754_zero _ => Some 0%Z
  | S754_finite s m e =>
      let sign := if s then Z.opp else (fun z => z) in
      if (0 <=? e)%Z then Some (sign (Zpos m * 2 ^ e)%Z)
      else if (Zpos m mod 2 ^ (- e) =? 0)%Z
           then Some (sign (Zpos m / 2 ^ (- e))%Z)
           else None
  | _ => None
  end.

Definition float_pow (x y : float) : result (float + complex) :=
  match integral y with
  | Some Z0 => Ok (inl F64.one)
  | Some (Zpos n) =>
      match x with
      | S754_finite s m e =>
          match binary_round F64.prec F64.emax (s && Z.odd (Zpos n))
                             (Pos.pow m n) (e * Zpos n) with
          | S754_infinity _ => Raise OverflowError
          | r => Ok (inl r)
          end
      | S754_infinity s => Ok (inl (S754_infinity (s && Z.odd (Zpos n))))
      | S754_zero s => Ok (inl (S754_zero (s && Z.odd (Zpos n))))
      | S754_nan => Ok (inl F64.nan)
      end
  | _ => Raise OverflowError
  end.

(** Division of integers with the quotient rounded half to even. *)
Definition div_half_even (a b : Z) : Z :=
  let q := (a / b)%Z in
  let r := (a mod b)%Z in
  match (2 * r ?= b)%Z with
  | Lt => q
  | Gt => (q + 1)%Z
  | Eq => if Z.even q then q else (q + 1)%Z
  end.

Definition float_round (x : float) (ndigits : Z) : float :=
  match x with
  | S754_finite s m e =>
      if (0 <=? e)%Z then x
      else
        match div_half_even (Zpos m * 10 ^ ndigits) (2 ^ (- e)) with
        | Zpos q =>
            F64.div (S754_finite s q 0) (F64.of_Z (10 ^ ndigits))
        | _ => S754_zero s
        end
  | _ => x
  end.

Definition present (xs : list float) : list float :=
  filter (fun x => negb (F64.is_nan x)) xs.

Definition sum (xs : list float) : float := fold_left F64.add xs F64.zero.

Definition count (xs : list float) : float := F64.of_Z (Z.of_nat (length xs)).

Definition nanmean (xs : list float) : float :=
  (sum (present xs) / count (present xs))%f64.

Definition nanstd (xs : list float) : float :=
  let ys := present xs in
  let mean := (sum ys / count ys)%f64 in
  let squares := map (fun y => (y - mean) * (y - mean))%f64 ys in
  F64.sqrt (sum squares / (count ys - F64.one))%f64.

End ExampleRuntime.

Definition example_runtime : Runtime :=
  {| complex := ExampleRuntime.complex;
     complex_sub := ExampleRuntime.complex_sub;
     complex_mul := ExampleRuntime.complex_mul;
     complex_div := ExampleRuntime.complex_div;
     complex_abs := ExampleRuntime.complex_abs;
     float_pow := ExampleRuntime.float_pow;
     float_round := ExampleRuntime.float_round;
     nanstd := ExampleRuntime.nanstd;
     nanmean := ExampleRuntime.nanmean |}.

(** A ledger of 7000 days that starts at the smallest normal number and
    gains a fifth every day: each daily return is clamped to 0.11, and the
    running product of 1.11 leaves the binary64 range after 6802 steps. *)
Fixpoint geometric (n : nat) (first ratio : float) : list float :=
  match n with
  | O => []
  | S n' => first :: geometric n' (first * ratio)%f64 ratio
  end.

Definition growing_ledger : Account :=
  {| dates := map Z.of_nat (seq 0 (Z.to_nat 7000));
     total_assets :=
       geometric (Z.to_nat 7000) (S754_finite false 4503599627370496 (-1074))
                 (F64.div (F64.of_Z 6) (F64.of_Z 5));
     trade_history := [] |}.

(** A trade that carries a [profit] field, and one whose profit is
    positive. *)
Definition has_profit (t : Trade) : bool :=
  match profit t with Some _ => true | None => false end.

Definition wins (t : Trade) : bool :=
  match profit t with Some p => (F64.zero <? p)%f64 | None => false end.

(** A cell that [replace(0, np.nan)] leaves missing: a zero or a cell that
    was missing already. *)
Definition gap (x : float) : bool := F64.is_nan x || (x == F64.zero)%f64.

(** The single-session limit on a daily return. *)
Definition within_limits (x : float) : Prop :=
  (F64.opp F64.lit_0_11 <=? x)%f64 = true /\ (x <=? F64.lit_0_11)%f64 = true.

(** [abs(x - y) < 1e-9] *)
Definition approx (x y : float) : Prop :=
  (F64.abs (x - y) <? F64.div (F64.of_Z 1) (F64.of_Z 1000000000))%f64 = true.

(** ** The return series of [BacktestVisualization]

    [src/Visualization.py], lines 7-18: the plotting class keeps a return
    series of its own, which is the one it was given or else the plain
    percentage change of the asset values, neither sanitized nor clamped. *)

Module Visualization.

Record BacktestVisualization : Type := {
  account : Account;
  strategy_returns : option Series
}.

(** [__init__(self, account, strategy_returns=None)] *)
Definition init (account : Account) (strategy_returns : option Series)
  : BacktestVisualization :=
  {| account := account; strategy_returns := strategy_returns |}.

Definition calculate_returns (self : BacktestVisualization)
  : result (Series * BacktestVisualization) :=
  match strategy_returns self with
  | None =>
      s <- pd.mk_Series (total_assets (account self)) (dates (account self)) ;;
      let r := pd.fillna F64.zero (pd.pct_change s) in
      Ok (r, {| account := account self; strategy_returns := Some r |})
  | Some r => Ok (r, self)
  end.

End Visualization.

(** The sum of the two counts of [get_buy_sell_count]. *)
Definition buy_plus_sell (self : PerformanceAnalysis) : Z :=
  (fst (get_buy_sell_count self) + snd (get_buy_sell_count self))%Z.

(** * Properties *)

(** ** Comparisons and rounding of binary64 numbers *)

Module F64Facts.

Lemma leb_nan_r x : (x <=? F64.nan)%f64 = false.
Proof. destruct x as [ [] | [] | | [] ? ? ]; reflexivity. Qed.

Lemma div_nan_r x : (x / F64.nan)%f64 = F64.nan.
Proof. destruct x; reflexivity. Qed.

Lemma eqb_zero_iff x : (x == F64.zero)%f64 = true <-> exists s, x = S754_zero s.
Proof.
  split.
  - destruct x as [ s | [] | | [] ? ? ]; try discriminate. now exists s.
  - intros [s ->]. reflexivity.
Qed.

(** A number below zero is not at or above a positive number. *)
Lemma negative_not_above (lo x : float) :
  (F64.zero <? lo)%f64 = true -> (x <? F64.zero)%f64 = true ->
  (lo <=? x)%f64 = false.
Proof.
  destruct lo as [ [] | [] | | [] ? ? ]; try discriminate;
    destruct x as [ [] | [] | | [] ? ? ]; try discriminate; reflexivity.
Qed.

Lemma negative_not_zero x : (x <? F64.zero)%f64 = true -> (x == F64.zero)%f64 = false.
Proof. destruct x as [ [] | [] | | [] ? ? ]; try discriminate; reflexivity. Qed.

Lemma above_positive_not_zero (lo x : float) :
  (F64.zero <? lo)%f64 = true -> (lo <=? x)%f64 = true ->
  (x == F64.zero)%f64 = false.
Proof.
  destruct lo as [ [] | [] | | [] ? ? ]; try discriminate;
    destruct x as [ [] | [] | | [] ? ? ]; try discriminate; reflexivity.
Qed.

Lemma leb_not_nan_r (lo x : float) : (lo <=? x)%f64 = true -> F64.is_nan x = false.
Proof. destruct x; try reflexivity. now rewrite leb_nan_r. Qed.

Lemma between_is_finite (lo hi x : float) :
  F64.is_finite lo = true -> F64.is_finite hi = true ->
  (lo <=? x)%f64 = true -> (x <=? hi)%f64 = true -> F64.is_finite x = true.
Proof.
  destruct lo as [ [] | [] | | [] ? ? ]; try discriminate;
    destruct hi as [ [] | [] | | [] ? ? ]; try discriminate;
    destruct x as [ [] | [] | | [] ? ? ]; try discriminate; reflexivity.
Qed.

Section Rounding.

Let prec := F64.prec.
Let emax := F64.emax.

Lemma iter_pos_invariant {A : Type} (P : A -> Prop) (f : A -> A) :
  (forall x, P x -> P (f x)) ->
  forall p x, P x -> P (iter_pos f p x).
Proof.
  intros Hf. induction p as [ p IH | p IH | ]; intros x Hx; simpl; auto.
Qed.

Lemma shr_1_nonneg mrs : (0 <= shr_m mrs)%Z -> (0 <= shr_m (shr_1 mrs))%Z.
Proof.
  destruct mrs as [m r s]. simpl.
  destruct m as [ | [ p | p | ] | [ p | p | ] ]; simpl; lia.
Qed.

Lemma shr_nonneg mrs e n :
  (0 <= shr_m mrs)%Z -> (0 <= shr_m (fst (shr mrs e n)))%Z.
Proof.
  intros H. destruct n as [ | p | p ]; simpl; auto.
  apply (iter_pos_invariant (fun r => (0 <= shr_m r)%Z)); auto using shr_1_nonneg.
Qed.

Lemma shr_fexp_nonneg m e l :
  (0 <= m)%Z -> (0 <= shr_m (fst (shr_fexp prec emax m e l)))%Z.
Proof.
  intros H. unfold shr_fexp. apply shr_nonneg.
  destruct l as [ | [] ]; simpl; exact H.
Qed.

Lemma round_nearest_even_nonneg m l :
  (0 <= m)%Z -> (0 <= round_nearest_even m l)%Z.
Proof.
  intros H. destruct l as [ | [] ]; simpl; try lia.
  destruct (Z.even m); lia.
Qed.

(** Rounding a non-negative mantissa never yields a NaN. *)
Lemma binary_round_aux_not_nan sx mx ex lx :
  (0 <= mx)%Z -> F64.is_nan (binary_round_aux prec emax sx mx ex lx) = false.
Proof.
  intros H. unfold binary_round_aux.
  pose proof (shr_fexp_nonneg mx ex lx H) as H1.
  destruct (shr_fexp prec emax mx ex lx) as [mrs' e']. simpl in H1.
  pose proof (shr_fexp_nonneg
                (round_nearest_even (shr_m mrs') (loc_of_shr_record mrs'))
                e' loc_Exact (round_nearest_even_nonneg _ _ H1)) as H2.
  destruct (shr_fexp prec emax _ e' loc_Exact) as [mrs'' e'']. simpl in H2.
  destruct (shr_m mrs'') as [ | m | m ]; try reflexivity.
  - destruct (Z.leb e'' (emax - prec)); reflexivity.
  - lia.
Qed.

Lemma binary_normalize_not_nan m e sz :
  F64.is_nan (binary_normalize prec emax m e sz) = false.
Proof.
  destruct m as [ | p | p ]; simpl; try reflexivity;
    unfold binary_round;
    destruct (shl_align p e _) as [mz ez];
    apply binary_round_aux_not_nan; lia.
Qed.

Lemma add_not_nan (x y : float) :
  F64.is_finite x = true -> F64.is_finite y = true ->
  F64.is_nan (x + y)%f64 = false.
Proof.
  destruct x as [ [] | [] | | sx mx ex ]; try discriminate;
    destruct y as [ [] | [] | | sy my ey ]; try discriminate;
    intros _ _; try reflexivity.
  apply binary_normalize_not_nan.
Qed.

End Rounding.

End F64Facts.

(** ** The pandas operations *)

Module pdFacts.

Import pd.

Lemma ffill_from_length last xs : length (ffill_from last xs) = length xs.
Proof.
  revert last. induction xs as [ | x xs IH ]; intros last; simpl; auto.
  destruct (F64.is_nan x); [ destruct last | ]; simpl; now rewrite IH.
Qed.

Lemma map2_length f xs ys :
  length (map2 f xs ys) = Nat.min (length xs) (length ys).
Proof.
  revert ys. induction xs as [ | x xs IH ]; intros [ | y ys ]; simpl; auto.
Qed.

Lemma shift1_length xs : length (shift1 xs) = length xs.
Proof.
  destruct xs as [ | x xs ]; auto.
  unfold shift1. cbn [length].
  rewrite removelast_firstn_len, length_firstn. cbn [length]. lia.
Qed.

Lemma pct_change_length s : len (pct_change s) = len s.
Proof.
  unfold len, pct_change. cbn [values].
  rewrite map2_length, shift1_length, ffill_from_length. lia.
Qed.

Lemma map_values_length f s : len (map_values f s) = len s.
Proof. unfold len, map_values. cbn [values]. apply length_map. Qed.

Lemma cumprod_from_length acc xs : length (cumprod_from acc xs) = length xs.
Proof.
  revert acc. induction xs as [ | x xs IH ]; intros acc; simpl; auto.
  destruct (F64.is_nan x); simpl; now rewrite IH.
Qed.

Lemma np_cumprod_length xs : length (np_cumprod xs) = length xs.
Proof.
  destruct xs as [ | x xs ]; simpl; auto.
  destruct (F64.is_nan x); simpl; now rewrite cumprod_from_length.
Qed.

(** The first cell of a percentage change is missing. *)
Lemma pct_change_head s x xs :
  values s = x :: xs ->
  exists ys, values (pct_change s) = F64.nan :: ys.
Proof.
  intros E. unfold pct_change. cbn [values]. rewrite E.
  assert (H : exists d ds, ffill_from None (x :: xs) = d :: ds).
  { simpl. destruct (F64.is_nan x); eauto. }
  destruct H as (d & ds & ->). unfold shift1. cbn [map2].
  rewrite F64Facts.div_nan_r. eexists. reflexivity.
Qed.

(** After [fillna] no cell is missing. *)
Lemma fillna_not_nan v s :
  F64.is_nan v = false ->
  Forall (fun x => F64.is_nan x = false) (values (fillna v s)).
Proof.
  intros Hv. unfold fillna, map_values. cbn [values].
  apply Forall_forall. intros y Hy. apply in_map_iff in Hy as (x & <- & _).
  destruct (F64.is_nan x) eqn:E; auto.
Qed.

(** A cell that is not missing is clipped into the closed interval. *)
Lemma clip_cell_bounds lo hi x :
  (lo <=? lo)%f64 = true -> (lo <=? hi)%f64 = true -> (hi <=? hi)%f64 = true ->
  F64.is_nan x = false ->
  (lo <=? clip_cell lo hi x)%f64 = true /\ (clip_cell lo hi x <=? hi)%f64 = true.
Proof.
  intros Hll Hlh Hhh Hx. unfold clip_cell. rewrite Hx.
  destruct (lo <=? x)%f64 eqn:E1; destruct (x <=? hi)%f64 eqn:E2; auto.
Qed.

End pdFacts.

(** ** Construction of the analyzer *)

Section Construction.

Variable acc : Account.

Let N := length (total_assets acc).

Hypothesis nonempty : 1 <= N.
Hypothesis consistent : length (dates acc) = N.

Lemma calculate_returns_fresh :
  calculate_returns (fresh acc)
  = Ok (daily_returns acc, set_strategy_returns (fresh acc) (daily_returns acc)).
Proof.
  unfold calculate_returns. cbn [account fresh].
  destruct (Nat.eqb_spec (length (total_assets acc)) 0) as [E | _].
  { subst N. lia. }
  unfold pd.mk_Series.
  destruct (Nat.eqb_spec (length (total_assets acc)) (length (dates acc))) as [_ | E].
  - reflexivity.
  - subst N. congruence.
Qed.

Lemma init_analyzed : init acc = Ok (analyzed acc).
Proof.
  unfold init. rewrite calculate_returns_fresh. reflexivity.
Qed.

Lemma daily_returns_length : pd.len (daily_returns acc) = N.
Proof.
  unfold daily_returns, pd.clip, pd.fillna.
  rewrite !pdFacts.map_values_length, pdFacts.pct_change_length.
  unfold sanitized_assets.
  destruct (any_nonpositive (total_assets acc)).
  - unfold pd.clip_lower. rewrite pdFacts.map_values_length.
    unfold pd.len, pd.ffill, pd.replace_zero_nan, pd.map_values. cbn [pd.values].
    now rewrite pdFacts.ffill_from_length, length_map.
  - reflexivity.
Qed.

End Construction.

(** ** The derived series *)

Section DerivedSeries.

Variable acc : Account.

Let lo := F64.opp F64.lit_0_11.
Let hi := F64.lit_0_11.

Lemma sanitized_assets_length assets s :
  pd.len (sanitized_assets assets s) = pd.len s.
Proof.
  unfold sanitized_assets. destruct (any_nonpositive assets); auto.
  unfold pd.clip_lower. rewrite pdFacts.map_values_length.
  unfold pd.len, pd.ffill, pd.replace_zero_nan, pd.map_values. cbn [pd.values].
  now rewrite pdFacts.ffill_from_length, length_map.
Qed.

Lemma daily_returns_head :
  1 <= length (total_assets acc) ->
  nth_error (pd.values (daily_returns acc)) 0 = Some F64.zero.
Proof.
  intros HN. unfold daily_returns.
  set (s := sanitized_assets _ _).
  assert (Hs : pd.len s = length (total_assets acc))
    by (subst s; now rewrite sanitized_assets_length).
  destruct (pd.values s) as [ | x xs ] eqn:E.
  { unfold pd.len in Hs. rewrite E in Hs. simpl in Hs. lia. }
  destruct (pdFacts.pct_change_head s x xs E) as (ys & Hys).
  unfold pd.clip, pd.fillna, pd.map_values. cbn [pd.values].
  rewrite Hys. reflexivity.
Qed.

Lemma daily_returns_within_limits :
  Forall within_limits (pd.values (daily_returns acc)).
Proof.
  unfold daily_returns. set (p := pd.pct_change _).
  pose proof (pdFacts.fillna_not_nan F64.zero p eq_refl) as H.
  unfold pd.clip, pd.map_values. cbn [pd.values].
  apply Forall_map. revert H. apply Forall_impl. intros x Hx.
  apply pdFacts.clip_cell_bounds; auto.
Qed.

Lemma one_plus_returns_not_nan :
  Forall (fun x => F64.is_nan x = false)
         (map (fun r => F64.one + r)%f64 (pd.values (daily_returns acc))).
Proof.
  apply Forall_map. generalize daily_returns_within_limits.
  apply Forall_impl. intros x [H1 H2].
  apply F64Facts.add_not_nan; [ reflexivity | ].
  now apply (F64Facts.between_is_finite lo hi).
Qed.

End DerivedSeries.

Lemma cumprod_from_nth xs : forall acc i,
  Forall (fun x => F64.is_nan x = false) xs -> i < length xs ->
  nth i (pd.cumprod_from acc xs) F64.nan = fold_left F64.mul (firstn (S i) xs) acc.
Proof.
  induction xs as [ | x xs IH ]; intros acc i Hxs Hi; simpl in Hi; [ lia | ].
  inversion Hxs as [ | ? ? Hx Hxs' ]; subst.
  cbn [pd.cumprod_from]. rewrite Hx.
  destruct i as [ | i ]; [ reflexivity | ].
  cbn [nth]. rewrite IH by (auto; lia). reflexivity.
Qed.

Lemma np_cumprod_nth xs i :
  Forall (fun x => F64.is_nan x = false) xs -> i < length xs ->
  nth i (pd.np_cumprod xs) F64.nan = prod_upto xs i.
Proof.
  intros Hxs Hi. destruct xs as [ | x xs ]; simpl in Hi; [ lia | ].
  inversion Hxs as [ | ? ? Hx Hxs' ]; subst.
  unfold pd.np_cumprod, prod_upto. rewrite Hx.
  destruct i as [ | i ]; [ reflexivity | ].
  cbn [nth firstn]. apply cumprod_from_nth; auto. lia.
Qed.

(** C5. For every ledger with N >= 1 dated asset values, the return series
    the analyzer derives starts with 0 and each later entry lies in the
    closed interval [-0.11, 0.11]. *)
Theorem returns_start_at_zero_and_are_clamped (acc : Account) (N : nat) :
  length (total_assets acc) = N -> length (dates acc) = N -> 1 <= N ->
  exists self returns,
    init acc = Ok self /\ strategy_returns self = Some returns /\
    pd.len returns = N /\
    nth_error (pd.values returns) 0 = Some F64.zero /\
    forall i x, 0 < i -> nth_error (pd.values returns) i = Some x ->
      (F64.opp F64.lit_0_11 <=? x)%f64 = true /\ (x <=? F64.lit_0_11)%f64 = true.
Proof.
  intros HA HD HN. subst N.
  exists (analyzed acc), (daily_returns acc).
  split; [ now apply init_analyzed | ].
  split; [ reflexivity | ].
  split; [ now apply daily_returns_length | ].
  split; [ now apply daily_returns_head | ].
  intros i x _ Hx. apply nth_error_In in Hx.
  pose proof (daily_returns_within_limits acc) as H.
  rewrite Forall_forall in H. exact (H x Hx).
Qed.

Lemma returns_start_at_zero_and_are_clamped_witness :
  exists self returns,
    init (ledger [1; 2; 3]%Z [100; 110; 121]%Z []) = Ok self /\
    strategy_returns self = Some returns /\
    pd.len returns = 3 /\
    nth_error (pd.values returns) 0 = Some F64.zero /\
    forall i x, 0 < i -> nth_error (pd.values returns) i = Some x ->
      (F64.opp F64.lit_0_11 <=? x)%f64 = true /\ (x <=? F64.lit_0_11)%f64 = true.
Proof.
  apply (returns_start_at_zero_and_are_clamped
           (ledger [1; 2; 3]%Z [100; 110; 121]%Z []) 3);
    [ reflexivity | reflexivity | lia ].
Defined.

(** The returns of [100, 110, 121] are 0, 0.1 and 0.1 up to rounding. *)
Lemma returns_of_steady_growth :
  exists r,
    option_map pd.values
      (strategy_returns (analyzed (ledger [1; 2; 3]%Z [100; 110; 121]%Z [])))
    = Some [F64.zero; r; r]
    /\ approx r (F64.div (F64.of_Z 1) (F64.of_Z 10)).
Proof.
  exists (S754_finite false 7205759403792800 (-56)).
  split; vm_compute; reflexivity.
Qed.

(** C6. For every ledger with N >= 1 dated asset values, the cumulative net
    value at [i] is the product of [1 + returns[k]] for [k] from 0 to [i],
    the cumulative return is the cumulative net value minus 1, and the
    return series and the cumulative return series are as long as the
    dates. *)
Theorem cumulative_series_round_trip (acc : Account) (N : nat) :
  length (total_assets acc) = N -> length (dates acc) = N -> 1 <= N ->
  exists self returns net cumret,
    init acc = Ok self /\
    strategy_returns self = Some returns /\
    cumulative_net_assets self = Some net /\
    cumulative_returns self = Some cumret /\
    pd.len returns = length (dates acc) /\
    pd.len cumret = length (dates acc) /\
    forall i, i < N ->
      nth i (pd.values net) F64.nan
      = prod_upto (map (fun r => F64.one + r)%f64 (pd.values returns)) i
      /\ nth i (pd.values cumret) F64.nan
         = (nth i (pd.values net) F64.nan - F64.one)%f64.
Proof.
  intros HA HD HN. subst N.
  exists (analyzed acc), (daily_returns acc),
    (net_values (daily_returns acc)), (minus_one (net_values (daily_returns acc))).
  pose proof (daily_returns_length acc) as HL.
  assert (HLn : length (pd.values (net_values (daily_returns acc)))
                = length (total_assets acc)).
  { unfold net_values. cbn [pd.values].
    rewrite pdFacts.np_cumprod_length, length_map. exact HL. }
  split; [ now apply init_analyzed | ].
  do 3 (split; [ reflexivity | ]).
  split; [ congruence | ].
  split.
  { unfold minus_one. rewrite pdFacts.map_values_length. unfold pd.len. congruence. }
  intros i Hi. split.
  - unfold net_values. cbn [pd.values].
    apply np_cumprod_nth.
    + apply one_plus_returns_not_nan.
    + rewrite length_map. unfold pd.len in HL. lia.
  - unfold minus_one, pd.map_values. cbn [pd.values].
    change F64.nan with ((fun x => x - F64.one)%f64 F64.nan) at 1.
    now rewrite map_nth.
Qed.

Lemma cumulative_series_round_trip_witness :
  exists self returns net cumret,
    init (ledger [1; 2; 3]%Z [100; 110; 121]%Z []) = Ok self /\
    strategy_returns self = Some returns /\
    cumulative_net_assets self = Some net /\
    cumulative_returns self = Some cumret /\
    pd.len returns = 3 /\
    pd.len cumret = 3 /\
    forall i, i < 3 ->
      nth i (pd.values net) F64.nan
      = prod_upto (map (fun r => F64.one + r)%f64 (pd.values returns)) i
      /\ nth i (pd.values cumret) F64.nan
         = (nth i (pd.values net) F64.nan - F64.one)%f64.
Proof.
  apply (cumulative_series_round_trip
           (ledger [1; 2; 3]%Z [100; 110; 121]%Z []) 3);
    [ reflexivity | reflexivity | lia ].
Defined.

(** ** Errors of return derivation *)

Lemma calculate_returns_raises_iff (self : PerformanceAnalysis) :
  raises (calculate_returns self)
  <-> length (total_assets (account self)) = 0
      \/ length (total_assets (account self)) <> length (dates (account self)).
Proof.
  unfold calculate_returns, raises, pd.mk_Series.
  destruct (Nat.eqb_spec (length (total_assets (account self))) 0) as [E0 | E0].
  { split; eauto. }
  destruct (Nat.eqb_spec (length (total_assets (account self)))
                         (length (dates (account self)))) as [E | E]; cbn [bind].
  - split.
    + intros [e H]. discriminate.
    + intros [H | H]; contradiction.
  - split; eauto.
Qed.

(** C4. [calculate_returns] is meant to raise exactly when there is no asset
    value.  On the ledger with the asset values [100, 110] and one date the
    asset series is not empty, and the construction of the series raises a
    [ValueError] all the same, in the constructor of the analyzer already. *)
Theorem calculate_returns_raises_on_length_mismatch :
  let acc := ledger [1]%Z [100; 110]%Z [] in
  length (total_assets acc) = 2
  /\ calculate_returns (fresh acc)
     = Raise (ValueError "Length of values does not match length of index")
  /\ init acc
     = Raise (ValueError "Length of values does not match length of index").
Proof. repeat split. Qed.

(** ** Total return *)

Lemma last_is_nth {A : Type} (l : list A) (d : A) :
  last l d = nth (length l - 1) l d.
Proof.
  induction l as [ | a l IH ]; [ reflexivity | ].
  destruct l as [ | b l ]; [ reflexivity | ].
  change (last (a :: b :: l) d) with (last (b :: l) d). rewrite IH.
  cbn [length]. replace (S (S (length l)) - 1) with (S (S (length l) - 1)) by lia.
  reflexivity.
Qed.

(** C9. [get_total_return] is 0.0 on fewer than two asset values and the
    value of [(final / initial - 1) * 100] on two or more, where [final] is
    the last and [initial] the first asset value; on [100, 110, 121] it is
    21.0 up to rounding. *)
Theorem get_total_return_formula :
  (forall self,
      length (total_assets (account self)) < 2 ->
      get_total_return self = Ok F64.zero)
  /\ (forall self N,
         length (total_assets (account self)) = N -> 2 <= N ->
         let assets := total_assets (account self) in
         get_total_return self
         = total_return_formula (nth (N - 1) assets F64.nan) (nth 0 assets F64.nan))
  /\ (forall self N,
         length (total_assets (account self)) = N -> 2 <= N ->
         let assets := total_assets (account self) in
         (nth 0 assets F64.nan == F64.zero)%f64 = false ->
         get_total_return self
         = Ok ((nth (N - 1) assets F64.nan / nth 0 assets F64.nan - F64.one)
               * F64.hundred)%f64)
  /\ (exists r,
         get_total_return (fresh (ledger [1; 2; 3]%Z [100; 110; 121]%Z [])) = Ok r
         /\ approx r (F64.of_Z 21)).
Proof.
  assert (Hmain : forall self N,
             length (total_assets (account self)) = N -> 2 <= N ->
             get_total_return self
             = total_return_formula
                 (nth (N - 1) (total_assets (account self)) F64.nan)
                 (nth 0 (total_assets (account self)) F64.nan)).
  { intros self N HN H2. unfold get_total_return.
    destruct (Nat.ltb_spec (length (total_assets (account self))) 2) as [H | _];
      [ lia | ].
    rewrite last_is_nth, HN. reflexivity. }
  split; [ | split; [ | split ] ].
  - intros self H. unfold get_total_return.
    destruct (Nat.ltb_spec (length (total_assets (account self))) 2); [ reflexivity | lia ].
  - exact Hmain.
  - intros self N HN H2 assets Hz. rewrite (Hmain self N HN H2).
    unfold total_return_formula, py_truediv. fold assets. rewrite Hz. reflexivity.
  - eexists. split; [ vm_compute; reflexivity | vm_compute; reflexivity ].
Qed.

(** C10. [get_total_return] divides by the first asset value as it is in the
    ledger: with two or more asset values of which the first is zero, it
    raises [ZeroDivisionError]. *)
Theorem get_total_return_zero_initial_raises (self : PerformanceAnalysis) :
  2 <= length (total_assets (account self)) ->
  (nth 0 (total_assets (account self)) F64.nan == F64.zero)%f64 = true ->
  get_total_return self = Raise ZeroDivisionError.
Proof.
  intros H2 Hz. unfold get_total_return.
  destruct (Nat.ltb_spec (length (total_assets (account self))) 2) as [H | _];
    [ lia | ].
  unfold py_truediv. rewrite Hz. reflexivity.
Qed.

Lemma get_total_return_zero_initial_raises_witness :
  get_total_return (fresh (ledger [1; 2]%Z [0; 100]%Z [])) = Raise ZeroDivisionError.
Proof.
  apply (get_total_return_zero_initial_raises (fresh (ledger [1; 2]%Z [0; 100]%Z [])));
    [ simpl; lia | reflexivity ].
Defined.

Lemma get_total_return_formula_witness :
  get_total_return (fresh (ledger [1; 2; 3]%Z [100; 110; 121]%Z []))
  = total_return_formula (F64.of_Z 121) (F64.of_Z 100).
Proof.
  apply (proj1 (proj2 get_total_return_formula)
           (fresh (ledger [1; 2; 3]%Z [100; 110; 121]%Z [])) 3);
    [ reflexivity | lia ].
Defined.

(** ** The summary *)

(** C1. The summary is meant never to raise on a ledger that is not empty
    and has as many dates as asset values.  The ledger with the asset values
    [0, 100] on two dates is such a ledger: the analyzer is constructed,
    validation reports the non-positive value, and the summary raises
    [ZeroDivisionError] in [get_total_return], whatever the runtime. *)
Theorem summary_raises_on_zero_initial_asset (rt : Runtime) :
  let acc := ledger [1; 2]%Z [0; 100]%Z [] in
  length (total_assets acc) = 2
  /\ length (dates acc) = length (total_assets acc)
  /\ init acc = Ok (analyzed acc)
  /\ validate_data (analyzed acc) = [nonpositive_asset_values]
  /\ get_performance_summary (analyzed acc) = Raise ZeroDivisionError.
Proof. repeat split. Qed.

(** ** Compounding *)

Section CompoundingErrors.

Variable cumprod : list float -> result (list float).
Variable self : PerformanceAnalysis.
Variable r : Series.

Hypothesis has_returns : strategy_returns self = Some r.

Lemma ensure_returns_present : ensure_returns self = Ok (r, self).
Proof. unfold ensure_returns. now rewrite has_returns. Qed.

Lemma compound_raises e :
  cumprod (map (fun x => F64.one + x)%f64 (pd.values r)) = Raise e ->
  compound cumprod r = Raise e.
Proof. intros H. unfold compound. now rewrite H. Qed.

End CompoundingErrors.

(** With numpy's default error state compounding does not raise. *)
Lemma calculate_cumulative_returns_returns self r :
  strategy_returns self = Some r ->
  calculate_cumulative_returns self
  = Ok (minus_one (net_values r), set_cumulative self (net_values r) (minus_one (net_values r))).
Proof.
  intros H. unfold calculate_cumulative_returns, calculate_cumulative_returns_with.
  rewrite (ensure_returns_present self r H). reflexivity.
Qed.

(** C7. When compounding raises, the cumulative series are meant to fall
    back to all-1.0 net values and all-0.0 returns.  The definition of
    [calculate_cumulative_returns] that the class ends up with lets the
    error through; the fallback is in the definition it replaces. *)
Theorem compounding_error_propagates
  (cumprod : list float -> result (list float))
  (self : PerformanceAnalysis) (r : Series) (e : exn) :
  strategy_returns self = Some r ->
  cumprod (map (fun x => F64.one + x)%f64 (pd.values r)) = Raise e ->
  calculate_cumulative_returns_with cumprod self = Raise e
  /\ calculate_cumulative_returns_shadowed cumprod self
     = let net := {| pd.index := pd.index r;
                     pd.values := repeat F64.one (pd.len r) |} in
       let ret := {| pd.index := pd.index r;
                     pd.values := repeat F64.zero (pd.len r) |} in
       Ok (ret, set_cumulative self net ret).
Proof.
  intros Hr He.
  unfold calculate_cumulative_returns_with, calculate_cumulative_returns_shadowed.
  rewrite (ensure_returns_present self r Hr). cbn [bind].
  rewrite (compound_raises cumprod r e He). split; reflexivity.
Qed.

Lemma compounding_error_propagates_witness :
  let r := daily_returns growing_ledger in
  calculate_cumulative_returns_with cumprod_checked (analyzed growing_ledger)
  = Raise FloatingPointError
  /\ calculate_cumulative_returns_shadowed cumprod_checked (analyzed growing_ledger)
     = let net := {| pd.index := pd.index r;
                     pd.values := repeat F64.one (pd.len r) |} in
       let ret := {| pd.index := pd.index r;
                     pd.values := repeat F64.zero (pd.len r) |} in
       Ok (ret, set_cumulative (analyzed growing_ledger) net ret).
Proof.
  exact (compounding_error_propagates cumprod_checked (analyzed growing_ledger)
           (daily_returns growing_ledger) FloatingPointError
           eq_refl ltac:(vm_compute; reflexivity)).
Defined.

(** On that ledger the analyzer is constructed, and with numpy's default
    error state the cumulative net value ends at plus infinity. *)
Lemma growing_ledger_saturates :
  init growing_ledger = Ok (analyzed growing_ledger)
  /\ option_map (fun net => last (pd.values net) F64.nan)
                (cumulative_net_assets (analyzed growing_ledger))
     = Some F64.inf.
Proof.
  split.
  - refine (init_analyzed growing_ledger _ _).
    + apply Nat.leb_le. vm_compute. reflexivity.
    + apply Nat.eqb_eq. vm_compute. reflexivity.
  - vm_compute. reflexivity.
Qed.

(** ** The Calmar ratio *)

Section CalmarRatio.

Context {rt : Runtime}.

Lemma get_calmar_ratio_raises (self : PerformanceAnalysis) :
  raises (get_calmar_ratio self).
Proof.
  unfold get_calmar_ratio, get_max_drawdown, raises.
  destruct (get_annualized_return self) as [ a | e ]; cbn [bind]; [ | eauto ].
  destruct (num_abs a) as [ annual | e ]; cbn [bind]; eauto.
Qed.

Lemma get_calmar_ratio_attribute_error (self : PerformanceAnalysis) a annual :
  get_annualized_return self = Ok a ->
  num_abs a = Ok annual ->
  get_calmar_ratio self = Raise (AttributeError "get_max_drawdown").
Proof.
  intros Ha Habs. unfold get_calmar_ratio.
  rewrite Ha. cbn [bind]. rewrite Habs. reflexivity.
Qed.

End CalmarRatio.

(** C2. [get_calmar_ratio] is meant to return
    [abs(annualized_return) / abs(max_drawdown)], and 0.0 when the maximum
    drawdown is 0.  It returns on no object: when the annualized return and
    its absolute value are there, the call of [get_max_drawdown], which the
    class does not define, raises [AttributeError].  So it is on the ledger
    with the asset values [100, 90, 99], whose specified maximum drawdown
    is -0.1 up to rounding, and on the ledger with the single asset value
    [100], whose specified ratio is 0.0. *)
Theorem get_calmar_ratio_never_returns (rt : Runtime) :
  (forall self, raises (get_calmar_ratio self))
  /\ (forall self a annual,
         get_annualized_return self = Ok a ->
         num_abs a = Ok annual ->
         get_calmar_ratio self = Raise (AttributeError "get_max_drawdown"))
  /\ (let acc := ledger [1; 2; 3]%Z [100; 90; 99]%Z [] in
      init acc = Ok (analyzed acc)
      /\ option_map (fun net => max_drawdown_of (pd.values net))
                    (cumulative_net_assets (analyzed acc))
         = Some (S754_finite true 7205759403792792 (-56))
      /\ raises (get_calmar_ratio (analyzed acc)))
  /\ (let acc := ledger [1]%Z [100]%Z [] in
      init acc = Ok (analyzed acc)
      /\ option_map (fun net => spec_calmar_ratio F64.zero (pd.values net))
                    (cumulative_net_assets (analyzed acc))
         = Some F64.zero
      /\ get_annualized_return (analyzed acc) = Ok (PyFloat F64.zero)
      /\ get_calmar_ratio (analyzed acc) = Raise (AttributeError "get_max_drawdown")).
Proof.
  split; [ exact get_calmar_ratio_raises | ].
  split; [ exact get_calmar_ratio_attribute_error | ].
  split.
  - split; [ reflexivity | split; [ vm_compute; reflexivity | ] ].
    apply get_calmar_ratio_raises.
  - split; [ reflexivity | split; [ vm_compute; reflexivity | split ] ];
      reflexivity.
Qed.

(** Reading a float off a result; its type does not mention the runtime, so
    that both sides can be evaluated. *)
Lemma float_result_eq (rt : Runtime) (c : result pynum) (v : float) :
  match c with Ok (PyFloat x) => Some x | _ => None end = Some v ->
  c = Ok (PyFloat v).
Proof.
  destruct c as [ [ x | z ] | e ]; intros H; try discriminate.
  now inversion H.
Qed.

(** With the example runtime the annualized return of [100, 90, 99] is
    there, and the exception is the [AttributeError]. *)
Lemma calmar_ratio_of_a_drawdown_ledger :
  @get_calmar_ratio example_runtime
    (analyzed (ledger [1; 2; 3]%Z [100; 90; 99]%Z []))
  = Raise (AttributeError "get_max_drawdown").
Proof. vm_compute. reflexivity. Qed.

(** ** The win rate *)

Lemma positive_cell_is_win t : (F64.zero <? cell profit t)%f64 = wins t.
Proof. unfold cell, wins. destruct (profit t); reflexivity. Qed.

Lemma has_column_of_member trades t :
  In t trades -> has_profit t = true -> has_column profit trades = true.
Proof.
  intros Hin Hp. unfold has_column. apply existsb_exists. exists t. split; auto.
Qed.

(** C8, as the code has it.  [get_win_rate] is the percentage of all sell
    trades that carry a positive profit: 0.0 when there is no sell trade or
    when no trade record at all carries a [profit] field, and otherwise 100
    times the number of sell trades with a positive profit over the number
    of sell trades, with or without a [profit] field.  It agrees with the
    percentage among the sell trades that carry the field whenever every
    sell trade carries it; on the two sell trades with profits 10 and -5 it
    is 50.0. *)
Theorem get_win_rate_over_all_sell_trades :
  (forall self,
      let trades := trade_history (account self) in
      let sell_trades := filter (is_action "sell") trades in
      get_win_rate self
      = if Nat.eqb (length sell_trades) 0 || negb (has_column profit trades)
        then F64.zero
        else (F64.of_Z (Z.of_nat (length (filter wins sell_trades)))
                / F64.of_Z (Z.of_nat (length sell_trades)) * F64.hundred)%f64)
  /\ (forall self,
         let trades := trade_history (account self) in
         Forall (fun t => has_profit t = true) (filter (is_action "sell") trades) ->
         get_win_rate self = spec_win_rate trades)
  /\ get_win_rate (fresh (ledger [1]%Z [100]%Z [sell (Some 10%Z); sell (Some (-5)%Z)]))
     = F64.of_Z 50.
Proof.
  assert (Hwins : forall l, filter (fun t => (F64.zero <? cell profit t)%f64) l
                            = filter wins l).
  { intros l. apply filter_ext. intros t. apply positive_cell_is_win. }
  assert (Hcode : forall self,
             get_win_rate self
             = if Nat.eqb (length (filter (is_action "sell") (trade_history (account self)))) 0
                  || negb (has_column profit (trade_history (account self)))
               then F64.zero
               else (F64.of_Z (Z.of_nat (length (filter wins
                        (filter (is_action "sell") (trade_history (account self))))))
                     / F64.of_Z (Z.of_nat (length
                        (filter (is_action "sell") (trade_history (account self)))))
                     * F64.hundred)%f64).
  { intros self. unfold get_win_rate.
    destruct (trade_history (account self)) as [ | t0 trades ] eqn:E; [ reflexivity | ].
    destruct (filter (is_action "sell") (t0 :: trades)) as [ | s0 sells ] eqn:Es;
      [ reflexivity | ].
    cbn [length Nat.eqb orb].
    destruct (has_column profit (t0 :: trades)); [ | reflexivity ].
    cbn [negb]. rewrite Hwins. reflexivity. }
  split; [ exact Hcode | split ].
  - intros self trades Hall. rewrite Hcode. fold trades.
    unfold spec_win_rate.
    assert (Hf : filter (fun t => match profit t with Some _ => true | None => false end)
                        (filter (is_action "sell") trades)
                 = filter (is_action "sell") trades).
    { apply forallb_filter_id. apply forallb_forall.
      rewrite Forall_forall in Hall. exact Hall. }
    rewrite Hf, Hwins.
    destruct (filter (is_action "sell") trades) as [ | s0 sells ] eqn:Es;
      [ reflexivity | ].
    assert (Hcol : has_column profit trades = true).
    { apply (has_column_of_member trades s0).
      - assert (Hin : In s0 (filter (is_action "sell") trades))
          by (rewrite Es; left; reflexivity).
        apply filter_In in Hin. tauto.
      - inversion Hall; assumption. }
    rewrite Hcol. reflexivity.
  - vm_compute. reflexivity.
Qed.

(** C8, as the specification words it, fails on a sell trade without a
    [profit] field: of the two sell trades, one with profit 10 and one
    without the field, the code counts one in two, 50.0, where one in one of
    the sell trades with the field, 100.0, is specified. *)
Lemma win_rate_counts_sell_trades_without_profit :
  let trades := [sell (Some 10%Z); sell None] in
  get_win_rate (fresh (ledger [1]%Z [100]%Z trades)) = F64.of_Z 50
  /\ spec_win_rate trades = F64.of_Z 100
  /\ get_win_rate (fresh (ledger [1]%Z [100]%Z trades)) <> spec_win_rate trades.
Proof.
  split; [ | split ]; [ vm_compute; reflexivity .. | ].
  vm_compute. discriminate.
Qed.

Lemma get_win_rate_over_all_sell_trades_witness :
  get_win_rate (fresh (ledger [1]%Z [100]%Z [sell (Some 10%Z); sell (Some (-5)%Z)]))
  = spec_win_rate [sell (Some 10%Z); sell (Some (-5)%Z)].
Proof.
  apply (proj1 (proj2 get_win_rate_over_all_sell_trades)
           (fresh (ledger [1]%Z [100]%Z [sell (Some 10%Z); sell (Some (-5)%Z)]))).
  repeat constructor.
Defined.

(** ** Substitution of non-positive asset values *)

Section ForwardFill.

Import pd.

Lemma ffill_from_keeps xs : forall last i x,
  nth_error xs i = Some x -> F64.is_nan x = false ->
  nth_error (ffill_from last xs) i = Some x.
Proof.
  induction xs as [ | y xs IH ]; intros last [ | i ] x Hx Hn; try discriminate.
  - simpl in Hx. inversion Hx; subst. simpl. now rewrite Hn.
  - simpl in Hx. simpl.
    destruct (F64.is_nan y); [ destruct last | ]; simpl; now apply IH.
Qed.

(** Over a run of missing cells the last value is carried along. *)
Lemma ffill_from_run xs : forall v i,
  (forall k, k <= i -> exists y, nth_error xs k = Some y /\ F64.is_nan y = true) ->
  nth_error (ffill_from (Some v) xs) i = Some v.
Proof.
  induction xs as [ | y xs IH ]; intros v i Hrun.
  - destruct (Hrun 0 (Nat.le_0_l i)) as (y & Hy & _). discriminate.
  - destruct (Hrun 0 (Nat.le_0_l i)) as (y' & Hy & Hn).
    simpl in Hy. inversion Hy; subst y'. simpl. rewrite Hn.
    destruct i as [ | i ]; [ reflexivity | ].
    simpl. apply IH. intros k Hk. apply (Hrun (S k)). lia.
Qed.

(** A missing cell takes the last value before it that is not missing. *)
Lemma ffill_from_fills xs : forall last i j v,
  j < i -> nth_error xs j = Some v -> F64.is_nan v = false ->
  (forall k, j < k <= i -> exists y, nth_error xs k = Some y /\ F64.is_nan y = true) ->
  nth_error (ffill_from last xs) i = Some v.
Proof.
  induction xs as [ | y xs IH ]; intros last i j v Hji Hv Hn Hrun.
  - destruct j; discriminate.
  - destruct i as [ | i ]; [ lia | ].
    destruct j as [ | j ].
    + simpl in Hv. inversion Hv; subst y. simpl. rewrite Hn. simpl.
      apply ffill_from_run. intros k Hk. apply (Hrun (S k)). lia.
    + simpl in Hv.
      assert (Hrec : forall last', nth_error (ffill_from last' xs) i = Some v).
      { intros last'. apply (IH last' i j v); auto; try lia.
        intros k Hk. apply (Hrun (S k)). lia. }
      simpl. destruct (F64.is_nan y); [ destruct last | ]; simpl; apply Hrec.
Qed.

Lemma replace_cell_gap x : F64.is_nan (replace_cell x) = gap x.
Proof.
  unfold replace_cell, gap.
  destruct (x == F64.zero)%f64; [ now rewrite orb_true_r | now rewrite orb_false_r ].
Qed.

Lemma replace_cell_valid x : gap x = false -> replace_cell x = x.
Proof.
  unfold replace_cell, gap. intros H. apply orb_false_elim in H as [_ H].
  now rewrite H.
Qed.

Lemma sanitized_values assets idx :
  any_nonpositive assets = true ->
  values (sanitized_assets assets {| index := idx; values := assets |})
  = map (clip_lower_cell F64.lit_1e_6) (ffill_from None (map replace_cell assets)).
Proof. intros H. unfold sanitized_assets. rewrite H. reflexivity. Qed.

End ForwardFill.

(** C3, as the code has it.  When some asset value is non-positive, the
    percentage change is taken of a series in which every negative value is
    replaced by the epsilon 1e-6, every zero that follows a value other
    than zero is replaced by the most recent such value, raised to 1e-6
    when it is below it, and every value that is at least 1e-6 is kept. *)
Theorem nonpositive_assets_are_substituted (acc : Account) :
  1 <= length (total_assets acc) ->
  length (dates acc) = length (total_assets acc) ->
  any_nonpositive (total_assets acc) = true ->
  let assets := total_assets acc in
  exists self s,
    init acc = Ok self
    /\ strategy_returns self
       = Some (pd.clip (F64.opp F64.lit_0_11) F64.lit_0_11
                 (pd.fillna F64.zero (pd.pct_change s)))
    /\ pd.len s = length assets
    /\ forall i x,
        nth_error assets i = Some x ->
        ((x <? F64.zero)%f64 = true ->
         nth_error (pd.values s) i = Some F64.lit_1e_6)
        /\ ((x == F64.zero)%f64 = true ->
            forall j v,
              j < i -> nth_error assets j = Some v -> gap v = false ->
              (forall k y, j < k < i -> nth_error assets k = Some y -> gap y = true) ->
              nth_error (pd.values s) i
              = Some (if (F64.lit_1e_6 <=? v)%f64 then v else F64.lit_1e_6))
        /\ ((F64.lit_1e_6 <=? x)%f64 = true ->
            nth_error (pd.values s) i = Some x).
Proof.
  intros HN HD Hany assets.
  exists (analyzed acc),
    (sanitized_assets assets {| pd.index := dates acc; pd.values := assets |}).
  split; [ now apply init_analyzed | ].
  split; [ reflexivity | ].
  split; [ now rewrite sanitized_assets_length | ].
  intros i x Hx. rewrite (sanitized_values assets (dates acc) Hany).
  assert (Hpos : (F64.zero <? F64.lit_1e_6)%f64 = true) by reflexivity.
  assert (Hkeep : forall y, nth_error assets i = Some y ->
                            (y == F64.zero)%f64 = false -> F64.is_nan y = false ->
                            nth_error (pd.ffill_from None (map pd.replace_cell assets)) i
                            = Some y).
  { intros y Hy Hz Hn. apply ffill_from_keeps.
    - rewrite nth_error_map, Hy. cbn [option_map]. unfold pd.replace_cell.
      now rewrite Hz.
    - exact Hn. }
  split; [ | split ].
  - intros Hneg.
    assert (Hn : F64.is_nan x = false) by (destruct x; [ | | discriminate | ]; reflexivity).
    rewrite nth_error_map, (Hkeep x Hx (F64Facts.negative_not_zero x Hneg) Hn).
    cbn [option_map]. unfold pd.clip_lower_cell.
    now rewrite Hn, (F64Facts.negative_not_above _ x Hpos Hneg).
  - intros Hzero j v Hji Hv Hgv Hrun.
    assert (Hfill : nth_error (pd.ffill_from None (map pd.replace_cell assets)) i = Some v).
    { apply (ffill_from_fills _ None i j v Hji).
      - rewrite nth_error_map, Hv. cbn [option_map].
        now rewrite (replace_cell_valid v Hgv).
      - unfold gap in Hgv. now apply orb_false_elim in Hgv.
      - intros k [Hjk Hki]. rewrite nth_error_map.
        destruct (Nat.eq_dec k i) as [ -> | Hne ].
        + rewrite Hx. cbn [option_map]. eexists. split; [ reflexivity | ].
          rewrite replace_cell_gap. unfold gap. now rewrite Hzero, orb_true_r.
        + destruct (nth_error assets k) as [ y | ] eqn:Hy.
          * cbn [option_map]. eexists. split; [ reflexivity | ].
            rewrite replace_cell_gap. apply (Hrun k y); auto. lia.
          * apply nth_error_None in Hy.
            assert (i < length assets) by (apply nth_error_Some; congruence). lia. }
    rewrite nth_error_map, Hfill. cbn [option_map]. unfold pd.clip_lower_cell.
    unfold gap in Hgv. apply orb_false_elim in Hgv as [Hnv _]. now rewrite Hnv.
  - intros Hge.
    assert (Hn : F64.is_nan x = false) by exact (F64Facts.leb_not_nan_r _ x Hge).
    rewrite nth_error_map,
      (Hkeep x Hx (F64Facts.above_positive_not_zero _ x Hpos Hge) Hn).
    cbn [option_map]. unfold pd.clip_lower_cell. now rewrite Hn, Hge.
Qed.

Lemma nonpositive_assets_are_substituted_witness :
  let acc := ledger [1; 2; 3; 4]%Z [100; 110; 0; 121]%Z [] in
  let assets := total_assets acc in
  exists self s,
    init acc = Ok self
    /\ strategy_returns self
       = Some (pd.clip (F64.opp F64.lit_0_11) F64.lit_0_11
                 (pd.fillna F64.zero (pd.pct_change s)))
    /\ pd.len s = length assets
    /\ forall i x,
        nth_error assets i = Some x ->
        ((x <? F64.zero)%f64 = true ->
         nth_error (pd.values s) i = Some F64.lit_1e_6)
        /\ ((x == F64.zero)%f64 = true ->
            forall j v,
              j < i -> nth_error assets j = Some v -> gap v = false ->
              (forall k y, j < k < i -> nth_error assets k = Some y -> gap y = true) ->
              nth_error (pd.values s) i
              = Some (if (F64.lit_1e_6 <=? v)%f64 then v else F64.lit_1e_6))
        /\ ((F64.lit_1e_6 <=? x)%f64 = true ->
            nth_error (pd.values s) i = Some x).
Proof.
  apply (nonpositive_assets_are_substituted
           (ledger [1; 2; 3; 4]%Z [100; 110; 0; 121]%Z []));
    [ simpl; lia | reflexivity | reflexivity ].
Defined.

(** The zero of [100, 110, 0, 121] is filled with 110, and the returns are
    0, 0.1, 0 and 0.1 up to rounding. *)
Lemma zero_is_filled_forward :
  let acc := ledger [1; 2; 3; 4]%Z [100; 110; 0; 121]%Z [] in
  pd.values (sanitized_assets (total_assets acc)
               {| pd.index := dates acc; pd.values := total_assets acc |})
  = map F64.of_Z [100; 110; 110; 121]%Z
  /\ validate_data (analyzed acc) = [nonpositive_asset_values].
Proof. split; vm_compute; reflexivity. Qed.

(** A leading zero has no value to take: it stays missing, also after the
    lower bound is applied, and the returns of [0, 100] are both 0. *)
Lemma leading_zero_stays_missing :
  let acc := ledger [1; 2]%Z [0; 100]%Z [] in
  pd.values (sanitized_assets (total_assets acc)
               {| pd.index := dates acc; pd.values := total_assets acc |})
  = [F64.nan; F64.of_Z 100]
  /\ option_map pd.values (strategy_returns (analyzed acc))
     = Some [F64.zero; F64.zero].
Proof. split; vm_compute; reflexivity. Qed.

(** C3, as the specification words it, fails on a negative value: in
    [100, -5, 121] the value -5 becomes 1e-6, where the preceding positive
    value 100 is specified, and the return of that day is -0.11 instead of
    0. *)
Lemma negative_asset_is_floored_not_filled :
  let acc := ledger [1; 2; 3]%Z [100; -5; 121]%Z [] in
  pd.values (sanitized_assets (total_assets acc)
               {| pd.index := dates acc; pd.values := total_assets acc |})
  = [F64.of_Z 100; F64.lit_1e_6; F64.of_Z 121]
  /\ spec_forward_fill (total_assets acc) = map F64.of_Z [100; 100; 121]%Z
  /\ init acc = Ok (analyzed acc)
  /\ option_map pd.values (strategy_returns (analyzed acc))
     = Some [F64.zero; F64.opp F64.lit_0_11; F64.lit_0_11]
  /\ pd.values (sanitized_assets (total_assets acc)
                  {| pd.index := dates acc; pd.values := total_assets acc |})
     <> spec_forward_fill (total_assets acc).
Proof.
  split; [ | split; [ | split; [ | split ] ] ];
    [ vm_compute; reflexivity .. | ].
  vm_compute. discriminate.
Qed.

(** * Further properties of the analyzer *)

(** ** The constructor and validation *)

Lemma calculate_returns_state (self : PerformanceAnalysis) r self' :
  calculate_returns self = Ok (r, self') ->
  strategy_returns self' = Some r /\ account self' = account self.
Proof.
  unfold calculate_returns.
  destruct (Nat.eqb (length (total_assets (account self))) 0); [ discriminate | ].
  destruct (pd.mk_Series _ _) as [ s | e ]; cbn [bind]; [ | discriminate ].
  intros H. inversion H; subst. split; reflexivity.
Qed.

Lemma daily_returns_index (acc : Account) :
  pd.index (daily_returns acc) = dates acc.
Proof.
  unfold daily_returns, sanitized_assets.
  destruct (any_nonpositive (total_assets acc)); reflexivity.
Qed.

Lemma init_empty (acc : Account) :
  length (total_assets acc) = 0 ->
  init acc = Raise (ValueError "没有可用的资产数据用于计算收益率").
Proof.
  intros H. unfold init, calculate_returns. cbn [fresh account].
  rewrite H. reflexivity.
Qed.

Lemma init_mismatch (acc : Account) :
  length (total_assets acc) <> 0 ->
  length (total_assets acc) <> length (dates acc) ->
  init acc = Raise (ValueError "Length of values does not match length of index").
Proof.
  intros H0 H. unfold init, calculate_returns, pd.mk_Series. cbn [fresh account].
  destruct (Nat.eqb_spec (length (total_assets acc)) 0); [ contradiction | ].
  destruct (Nat.eqb_spec (length (total_assets acc)) (length (dates acc)));
    [ contradiction | reflexivity ].
Qed.

Lemma init_inversion (acc : Account) self :
  init acc = Ok self ->
  1 <= length (total_assets acc)
  /\ length (dates acc) = length (total_assets acc)
  /\ self = analyzed acc.
Proof.
  intros H.
  destruct (Nat.eq_dec (length (total_assets acc)) 0) as [E0 | E0].
  { rewrite (init_empty acc E0) in H. discriminate. }
  destruct (Nat.eq_dec (length (total_assets acc)) (length (dates acc))) as [E | E].
  - assert (H1 : 1 <= length (total_assets acc)) by lia.
    rewrite (init_analyzed acc H1 (eq_sym E)) in H. inversion H. auto.
  - rewrite (init_mismatch acc E0 E) in H. discriminate.
Qed.

(** X1. The constructor has three outcomes: on an empty asset list it raises
    the [ValueError] of [calculate_returns], whatever the dates; on a
    non-empty asset list whose length differs from the number of dates it
    raises the [ValueError] of [pd.Series]; otherwise it returns an object
    that holds the ledger and three series, each indexed by the dates and as
    long as the asset list. *)
Theorem init_outcomes (acc : Account) :
  (length (total_assets acc) = 0 ->
   init acc = Raise (ValueError "没有可用的资产数据用于计算收益率"))
  /\ (length (total_assets acc) <> 0 ->
      length (total_assets acc) <> length (dates acc) ->
      init acc = Raise (ValueError "Length of values does not match length of index"))
  /\ (length (total_assets acc) <> 0 ->
      length (total_assets acc) = length (dates acc) ->
      exists self r net ret,
        init acc = Ok self
        /\ account self = acc
        /\ strategy_returns self = Some r
        /\ cumulative_net_assets self = Some net
        /\ cumulative_returns self = Some ret
        /\ Forall (fun s => pd.index s = dates acc
                            /\ pd.len s = length (total_assets acc))
                  [r; net; ret]).
Proof.
  split; [ apply init_empty | split; [ apply init_mismatch | ] ].
  intros H0 HD.
  assert (H1 : 1 <= length (total_assets acc)) by lia.
  exists (analyzed acc), (daily_returns acc), (net_values (daily_returns acc)),
    (minus_one (net_values (daily_returns acc))).
  pose proof (daily_returns_length acc) as HL.
  assert (HLn : pd.len (net_values (daily_returns acc)) = length (total_assets acc)).
  { unfold net_values, pd.len. cbn [pd.values].
    rewrite pdFacts.np_cumprod_length, length_map. exact HL. }
  split; [ apply init_analyzed; auto | ].
  do 4 (split; [ reflexivity | ]).
  pose proof (daily_returns_index acc) as HI.
  apply Forall_cons; [ split; [ exact HI | exact HL ] | ].
  apply Forall_cons; [ split; [ exact HI | exact HLn ] | ].
  apply Forall_cons; [ split; [ exact HI | ] | constructor ].
  unfold minus_one. now rewrite pdFacts.map_values_length.
Qed.

Lemma init_outcomes_witness :
  init (ledger [] [] []) = Raise (ValueError "没有可用的资产数据用于计算收益率").
Proof. apply (proj1 (init_outcomes (ledger [] [] []))). reflexivity. Defined.

(** X2. On an object the constructor returned, validation can report one
    issue only, the non-positive asset value: the checks for an empty asset
    list and for a length mismatch cannot fire any more. *)
Theorem validate_data_after_init (acc : Account) (self : PerformanceAnalysis) :
  init acc = Ok self ->
  validate_data self
  = if any_nonpositive (total_assets acc) then [nonpositive_asset_values] else [].
Proof.
  intros H. apply init_inversion in H as (H1 & HD & ->).
  unfold validate_data. cbn [analyzed account].
  destruct (Nat.eqb_spec (length (total_assets acc)) 0); [ lia | ].
  destruct (Nat.eqb_spec (length (dates acc)) (length (total_assets acc)));
    [ | contradiction ].
  cbn [app]. now rewrite app_nil_r.
Qed.

Lemma validate_data_after_init_witness :
  validate_data (analyzed (ledger [1; 2; 3; 4]%Z [100; 110; 0; 121]%Z []))
  = [nonpositive_asset_values].
Proof.
  exact (validate_data_after_init
           (ledger [1; 2; 3; 4]%Z [100; 110; 0; 121]%Z []) _ eq_refl).
Defined.

(** X3. Validation reports nothing exactly when the ledger has at least one
    asset value, no asset value that is [<= 0], and as many dates as asset
    values. *)
Theorem validate_data_clean_iff (self : PerformanceAnalysis) :
  validate_data self = []
  <-> length (total_assets (account self)) <> 0
      /\ any_nonpositive (total_assets (account self)) = false
      /\ length (dates (account self)) = length (total_assets (account self)).
Proof.
  unfold validate_data.
  destruct (Nat.eqb_spec (length (total_assets (account self))) 0) as [E0 | E0];
    destruct (any_nonpositive (total_assets (account self)));
    destruct (Nat.eqb_spec (length (dates (account self)))
                           (length (total_assets (account self)))) as [E | E];
    cbn [app]; split; try discriminate; intros H; try tauto;
    destruct H as (H1 & H2 & H3); try discriminate; contradiction.
Qed.

(** ** Recomputation *)

(** X4. The derived series are stable: on an object the constructor
    returned, running [calculate_returns] or
    [calculate_cumulative_returns] again yields the series already stored
    and leaves the object as it is. *)
Theorem recomputation_is_stable (acc : Account) (self : PerformanceAnalysis) :
  init acc = Ok self ->
  exists r ret,
    strategy_returns self = Some r
    /\ cumulative_returns self = Some ret
    /\ calculate_returns self = Ok (r, self)
    /\ calculate_cumulative_returns self = Ok (ret, self).
Proof.
  intros H. apply init_inversion in H as (H1 & HD & ->).
  exists (daily_returns acc), (minus_one (net_values (daily_returns acc))).
  split; [ reflexivity | split; [ reflexivity | split ] ].
  - unfold calculate_returns, pd.mk_Series. cbn [analyzed account].
    destruct (Nat.eqb_spec (length (total_assets acc)) 0); [ lia | ].
    destruct (Nat.eqb_spec (length (total_assets acc)) (length (dates acc)));
      [ reflexivity | congruence ].
  - rewrite (calculate_cumulative_returns_returns (analyzed acc) (daily_returns acc));
      reflexivity.
Qed.

Lemma recomputation_is_stable_witness :
  let self := analyzed (ledger [1; 2; 3]%Z [100; 110; 121]%Z []) in
  exists r ret,
    strategy_returns self = Some r
    /\ cumulative_returns self = Some ret
    /\ calculate_returns self = Ok (r, self)
    /\ calculate_cumulative_returns self = Ok (ret, self).
Proof.
  exact (recomputation_is_stable (ledger [1; 2; 3]%Z [100; 110; 121]%Z []) _ eq_refl).
Defined.

(** X5. Asking for the cumulative returns of an object that has no return
    series yet derives the returns first: on a fresh object
    [calculate_cumulative_returns] ends in the state the constructor
    builds, and raises what the constructor raises. *)
Theorem cumulative_returns_are_lazy (acc : Account) :
  init acc = (p <- calculate_cumulative_returns (fresh acc) ;; Ok (snd p)).
Proof.
  unfold init, calculate_cumulative_returns, calculate_cumulative_returns_with,
    ensure_returns.
  cbn [fresh strategy_returns].
  destruct (calculate_returns (fresh acc)) as [ [r self] | e ] eqn:E;
    cbn [bind]; [ | reflexivity ].
  apply calculate_returns_state in E as [E _]. rewrite E. cbn [bind]. reflexivity.
Qed.

(** X6. With numpy's default error state the two definitions of
    [calculate_cumulative_returns] in the class body agree on every object:
    the fallback of the first one is never taken. *)
Theorem shadowed_definition_agrees (self : PerformanceAnalysis) :
  calculate_cumulative_returns_shadowed cumprod_default self
  = calculate_cumulative_returns self.
Proof.
  unfold calculate_cumulative_returns, calculate_cumulative_returns_shadowed,
    calculate_cumulative_returns_with.
  destruct (ensure_returns self) as [ [r self'] | e ]; reflexivity.
Qed.

(** X7. Every cumulative series the constructor builds starts at its
    neutral value: the first cumulative net value is 1.0 and the first
    cumulative return is 0.0, whatever the asset values are. *)
Theorem cumulative_series_start (acc : Account) (self : PerformanceAnalysis) :
  init acc = Ok self ->
  exists net ret,
    cumulative_net_assets self = Some net
    /\ cumulative_returns self = Some ret
    /\ nth_error (pd.values net) 0 = Some F64.one
    /\ nth_error (pd.values ret) 0 = Some F64.zero.
Proof.
  intros H. apply init_inversion in H as (H1 & HD & ->).
  exists (net_values (daily_returns acc)), (minus_one (net_values (daily_returns acc))).
  do 2 (split; [ reflexivity | ]).
  pose proof (daily_returns_head acc H1) as Hh.
  unfold minus_one, net_values, pd.map_values. cbn [pd.values].
  destruct (pd.values (daily_returns acc)) as [ | x xs ]; [ discriminate | ].
  simpl in Hh. inversion Hh; subst x. split; reflexivity.
Qed.

Lemma cumulative_series_start_witness :
  let self := analyzed (ledger [1; 2]%Z [0; 100]%Z []) in
  exists net ret,
    cumulative_net_assets self = Some net
    /\ cumulative_returns self = Some ret
    /\ nth_error (pd.values net) 0 = Some F64.one
    /\ nth_error (pd.values ret) 0 = Some F64.zero.
Proof.
  exact (cumulative_series_start (ledger [1; 2]%Z [0; 100]%Z []) _ eq_refl).
Defined.

(** ** The sanitized asset series *)

Lemma ffill_from_some_not_nan xs : forall v i,
  F64.is_nan v = false -> i < length xs ->
  exists y, nth_error (pd.ffill_from (Some v) xs) i = Some y /\ F64.is_nan y = false.
Proof.
  induction xs as [ | x xs IH ]; intros v i Hv Hi; simpl in Hi; [ lia | ].
  simpl. destruct (F64.is_nan x) eqn:Ex.
  - destruct i as [ | i ]; simpl; [ eauto | apply IH; auto; lia ].
  - destruct i as [ | i ]; simpl; [ eauto | apply IH; auto; lia ].
Qed.

(** From the first cell that is not missing on, no filled cell is missing. *)
Lemma ffill_from_valid_after xs : forall last i j v,
  j <= i -> i < length xs -> nth_error xs j = Some v -> F64.is_nan v = false ->
  exists y, nth_error (pd.ffill_from last xs) i = Some y /\ F64.is_nan y = false.
Proof.
  induction xs as [ | x xs IH ]; intros last i j v Hji Hi Hv Hn; simpl in Hi; [ lia | ].
  destruct j as [ | j ].
  - simpl in Hv. inversion Hv; subst x. simpl. rewrite Hn.
    destruct i as [ | i ]; simpl; [ eauto | ].
    apply ffill_from_some_not_nan; auto. lia.
  - destruct i as [ | i ]; [ lia | ]. simpl in Hv.
    assert (Hrec : forall last',
               exists y, nth_error (pd.ffill_from last' xs) i = Some y
                         /\ F64.is_nan y = false).
    { intros last'. apply (IH last' i j v); auto; lia. }
    simpl. destruct (F64.is_nan x); [ destruct last | ]; simpl; apply Hrec.
Qed.

Lemma clip_lower_cell_floor x :
  F64.is_nan (pd.clip_lower_cell F64.lit_1e_6 x) = true
  \/ (F64.lit_1e_6 <=? pd.clip_lower_cell F64.lit_1e_6 x)%f64 = true.
Proof.
  unfold pd.clip_lower_cell. destruct (F64.is_nan x) eqn:En; [ now left | right ].
  destruct (F64.lit_1e_6 <=? x)%f64 eqn:E; [ exact E | reflexivity ].
Qed.

(** X8. When some asset value is non-positive, every cell of the series the
    percentage change is taken of is missing or at least 1e-6, and from the
    first asset value on that is neither zero nor missing no cell is
    missing: every later divisor is at least 1e-6. *)
Theorem sanitized_assets_floor (assets : list float) (idx : list date) :
  any_nonpositive assets = true ->
  let s := pd.values (sanitized_assets assets
                        {| pd.index := idx; pd.values := assets |}) in
  Forall (fun x => F64.is_nan x = true \/ (F64.lit_1e_6 <=? x)%f64 = true) s
  /\ forall i j v,
      j <= i -> i < length assets ->
      nth_error assets j = Some v -> gap v = false ->
      exists y, nth_error s i = Some y /\ (F64.lit_1e_6 <=? y)%f64 = true.
Proof.
  intros Hany s. subst s. rewrite (sanitized_values assets idx Hany). split.
  - apply Forall_map. apply Forall_forall. intros x _. apply clip_lower_cell_floor.
  - intros i j v Hji Hi Hv Hg.
    destruct (ffill_from_valid_after (map pd.replace_cell assets) None i j v)
      as (y & Hy & Hn); auto.
    + now rewrite length_map.
    + rewrite nth_error_map, Hv. cbn [option_map].
      now rewrite (replace_cell_valid v Hg).
    + unfold gap in Hg. now apply orb_false_elim in Hg.
    + exists (pd.clip_lower_cell F64.lit_1e_6 y).
      rewrite nth_error_map, Hy. split; [ reflexivity | ].
      destruct (clip_lower_cell_floor y) as [H | H]; [ | exact H ].
      unfold pd.clip_lower_cell in H |- *. rewrite Hn in H |- *.
      destruct (F64.lit_1e_6 <=? y)%f64 eqn:E; [ exact E | reflexivity ].
Qed.

Lemma sanitized_assets_floor_witness :
  let assets := map F64.of_Z [0; -5; 0; 121]%Z in
  let s := pd.values (sanitized_assets assets
                        {| pd.index := [1; 2; 3; 4]%Z; pd.values := assets |}) in
  Forall (fun x => F64.is_nan x = true \/ (F64.lit_1e_6 <=? x)%f64 = true) s
  /\ forall i j v,
      j <= i -> i < length assets ->
      nth_error assets j = Some v -> gap v = false ->
      exists y, nth_error s i = Some y /\ (F64.lit_1e_6 <=? y)%f64 = true.
Proof.
  exact (sanitized_assets_floor (map F64.of_Z [0; -5; 0; 121]%Z) [1; 2; 3; 4]%Z eq_refl).
Defined.

(** ** Trade statistics *)

Lemma buy_is_not_sell t : is_action "buy" t = true -> is_action "sell" t = false.
Proof.
  unfold is_action. intros H. apply String.eqb_eq in H. now rewrite H.
Qed.

Lemma two_counts {A : Type} (p q : A -> bool) (l : list A) :
  (forall t, p t = true -> q t = false) ->
  length (filter p l) + length (filter q l) <= length l
  /\ (length (filter p l) + length (filter q l) = length l
      <-> Forall (fun t => p t = true \/ q t = true) l).
Proof.
  intros Hpq. induction l as [ | t l [IH1 IH2] ]; simpl.
  - split; [ lia | split; auto ].
  - destruct (p t) eqn:Ep.
    + rewrite (Hpq t Ep). simpl. split; [ lia | ]. split.
      * intros H. constructor; [ left; exact Ep | ]. apply IH2. lia.
      * intros H. apply Forall_inv_tail in H. apply IH2 in H. lia.
    + destruct (q t) eqn:Eq; simpl.
      * split; [ lia | ]. split.
        -- intros H. constructor; [ right; exact Eq | ]. apply IH2. lia.
        -- intros H. apply Forall_inv_tail in H. apply IH2 in H. lia.
      * split; [ lia | ]. split.
        -- intros H. lia.
        -- intros H. apply Forall_inv in H. destruct H; congruence.
Qed.

Lemma get_buy_sell_count_by_filter (self : PerformanceAnalysis) :
  get_buy_sell_count self
  = (Z.of_nat (length (filter (is_action "buy") (trade_history (account self)))),
     Z.of_nat (length (filter (is_action "sell") (trade_history (account self))))).
Proof.
  unfold get_buy_sell_count. destruct (trade_history (account self)); reflexivity.
Qed.

(** X9. The buy and sell counts never exceed the trade count together, and
    they add up to it exactly when every trade record has the action
    ["buy"] or ["sell"]; a record with another action is counted as a trade
    but as neither. *)
Theorem buy_and_sell_counts (self : PerformanceAnalysis) :
  (buy_plus_sell self <= get_trade_count self)%Z
  /\ (buy_plus_sell self = get_trade_count self
      <-> Forall (fun t => action t = "buy"%string \/ action t = "sell"%string)
                 (trade_history (account self))).
Proof.
  unfold buy_plus_sell, get_trade_count.
  rewrite get_buy_sell_count_by_filter. cbn [fst snd].
  destruct (two_counts (is_action "buy") (is_action "sell")
              (trade_history (account self)) buy_is_not_sell) as [H1 H2].
  split; [ lia | ].
  assert (Hiff : Forall (fun t => is_action "buy" t = true \/ is_action "sell" t = true)
                        (trade_history (account self))
                 <-> Forall (fun t => action t = "buy"%string \/ action t = "sell"%string)
                            (trade_history (account self))).
  { rewrite !Forall_forall. unfold is_action.
    split; intros H t Ht; specialize (H t Ht);
      rewrite !String.eqb_eq in *; exact H. }
  rewrite <- Hiff, <- H2. lia.
Qed.

Lemma filter_length_permutation {A : Type} (f : A -> bool) (l l' : list A) :
  Permutation l l' -> length (filter f l) = length (filter f l').
Proof.
  induction 1 as [ | x l l' _ IH | x y l | l l' l'' _ IH1 _ IH2 ]; simpl.
  - reflexivity.
  - destruct (f x); simpl; now rewrite IH.
  - destruct (f x), (f y); reflexivity.
  - congruence.
Qed.

Lemma existsb_permutation {A : Type} (f : A -> bool) (l l' : list A) :
  Permutation l l' -> existsb f l = existsb f l'.
Proof.
  induction 1 as [ | x l l' _ IH | x y l | l l' l'' _ IH1 _ IH2 ]; simpl.
  - reflexivity.
  - now rewrite IH.
  - destruct (f x), (f y); reflexivity.
  - congruence.
Qed.

Lemma get_win_rate_by_counts (self : PerformanceAnalysis) :
  let trades := trade_history (account self) in
  let sell_trades := filter (is_action "sell") trades in
  get_win_rate self
  = if Nat.eqb (length sell_trades) 0 || negb (has_column profit trades)
    then F64.zero
    else (F64.of_Z (Z.of_nat (length (filter (fun t => (F64.zero <? cell profit t)%f64)
                                             sell_trades)))
          / F64.of_Z (Z.of_nat (length sell_trades)) * F64.hundred)%f64.
Proof.
  unfold get_win_rate.
  destruct (trade_history (account self)) as [ | t0 trades ]; [ reflexivity | ].
  destruct (filter (is_action "sell") (t0 :: trades)) as [ | s0 sells ];
    [ reflexivity | ].
  cbn [length Nat.eqb orb].
  destruct (has_column profit (t0 :: trades)); reflexivity.
Qed.

(** X10. The trade statistics do not depend on the order of the trade
    history: two objects whose histories are permutations of each other
    have the same trade count, the same buy and sell counts and the same
    win rate. *)
Theorem trade_statistics_ignore_order (self self' : PerformanceAnalysis) :
  Permutation (trade_history (account self)) (trade_history (account self')) ->
  get_trade_count self = get_trade_count self'
  /\ get_buy_sell_count self = get_buy_sell_count self'
  /\ get_win_rate self = get_win_rate self'.
Proof.
  intros HP. split; [ | split ].
  - unfold get_trade_count. now rewrite (Permutation_length HP).
  - rewrite !get_buy_sell_count_by_filter.
    now rewrite (filter_length_permutation (is_action "buy") _ _ HP),
      (filter_length_permutation (is_action "sell") _ _ HP).
  - rewrite !get_win_rate_by_counts. cbv zeta.
    assert (HS : Permutation
                   (filter (is_action "sell") (trade_history (account self)))
                   (filter (is_action "sell") (trade_history (account self')))).
    { clear - HP. induction HP as [ | x l l' _ IH | x y l | l l' l'' _ IH1 _ IH2 ];
        simpl.
      - constructor.
      - destruct (is_action "sell" x); [ now constructor | exact IH ].
      - destruct (is_action "sell" x), (is_action "sell" y);
          try apply Permutation_refl. apply perm_swap.
      - eapply perm_trans; eauto. }
    unfold has_column.
    rewrite (existsb_permutation _ _ _ HP), (Permutation_length HS),
      (filter_length_permutation _ _ _ HS).
    reflexivity.
Qed.

Lemma trade_statistics_ignore_order_witness :
  let self := fresh (ledger [1]%Z [100]%Z [sell (Some 10%Z); sell None]) in
  let self' := fresh (ledger [1]%Z [100]%Z [sell None; sell (Some 10%Z)]) in
  get_trade_count self = get_trade_count self'
  /\ get_buy_sell_count self = get_buy_sell_count self'
  /\ get_win_rate self = get_win_rate self'.
Proof.
  exact (trade_statistics_ignore_order
           (fresh (ledger [1]%Z [100]%Z [sell (Some 10%Z); sell None]))
           (fresh (ledger [1]%Z [100]%Z [sell None; sell (Some 10%Z)]))
           (perm_swap _ _ [])).
Defined.

(** ** The return metrics *)

Section ReturnMetrics.

Context {rt : Runtime}.

Lemma divide_by_hundred (a : float) :
  num_div (PyFloat a) F64.hundred = Ok (PyFloat (a / F64.hundred)%f64).
Proof. reflexivity. Qed.

(** The Sharpe ratio of an object whose annualized return is a float. *)
Lemma sharpe_ratio_of_float (risk_free_rate : float)
  (self : PerformanceAnalysis) (r : Series) (a : float) :
  strategy_returns self = Some r ->
  get_annualized_return self = Ok (PyFloat a) ->
  get_sharpe_ratio risk_free_rate self
  = Ok (PyFloat
          (if Nat.ltb (pd.len r) 2 then F64.zero
           else
             let annual_volatility :=
               (nanstd (pd.values r) * F64.sqrt F64.lit_252)%f64 in
             if (annual_volatility == F64.zero)%f64 then F64.zero
             else ((a / F64.hundred - risk_free_rate) / annual_volatility)%f64),
        self).
Proof.
  intros Hr Ha. unfold get_sharpe_ratio.
  rewrite (ensure_returns_present self r Hr). cbn [bind].
  destruct (Nat.ltb (pd.len r) 2); [ reflexivity | ].
  rewrite Ha. cbn [bind]. rewrite divide_by_hundred. cbn [bind]. cbv zeta.
  destruct (nanstd (pd.values r) * F64.sqrt F64.lit_252 == F64.zero)%f64 eqn:E;
    [ reflexivity | ].
  unfold num_sub, num_div, py_truediv. rewrite E. reflexivity.
Qed.

Lemma volatility_value (self : PerformanceAnalysis) (r : Series) :
  strategy_returns self = Some r ->
  get_volatility self
  = Ok (if Nat.ltb (pd.len r) 2 then F64.zero
        else (nanstd (pd.values r) * F64.sqrt F64.lit_252 * F64.hundred)%f64,
        self).
Proof.
  intros Hr. unfold get_volatility.
  rewrite (ensure_returns_present self r Hr). cbn [bind].
  destruct (Nat.ltb (pd.len r) 2); reflexivity.
Qed.

(** The summary stops at the Calmar ratio when the metrics before it
    return. *)
Lemma summary_stops_at_calmar (self : PerformanceAnalysis)
  (total a sharpe volatility : float) :
  get_total_return self = Ok total ->
  get_annualized_return self = Ok (PyFloat a) ->
  get_sharpe_ratio F64.lit_0_02 self = Ok (PyFloat sharpe, self) ->
  get_volatility self = Ok (volatility, self) ->
  get_performance_summary self = Raise (AttributeError "get_max_drawdown").
Proof.
  intros Ht Ha Hs Hv. unfold get_performance_summary.
  rewrite Ht. cbn [bind]. rewrite Ha. cbn [bind]. rewrite Hs. cbn [bind].
  rewrite Hv. cbn [bind].
  now rewrite (get_calmar_ratio_attribute_error self (PyFloat a) (F64.abs a) Ha eq_refl).
Qed.

Lemma summary_raises (self : PerformanceAnalysis) :
  raises (get_performance_summary self).
Proof.
  unfold get_performance_summary, raises.
  destruct (get_total_return self) as [ total | e ]; cbn [bind]; [ | eauto ].
  destruct (get_annualized_return self) as [ a | e ]; cbn [bind]; [ | eauto ].
  destruct (get_sharpe_ratio F64.lit_0_02 self) as [ [sharpe self1] | e ];
    cbn [bind]; [ | eauto ].
  destruct (get_volatility self1) as [ [volatility self2] | e ];
    cbn [bind]; [ | eauto ].
  destruct (get_calmar_ratio_raises self2) as [e He]. rewrite He. cbn [bind]. eauto.
Qed.

(** On a ledger the constructor accepts, the total return evaluates whenever
    the annualized return does. *)
Lemma total_return_of_annualized (acc : Account) (a : pynum) :
  length (dates acc) = length (total_assets acc) ->
  get_annualized_return (analyzed acc) = Ok a ->
  exists total, get_total_return (analyzed acc) = Ok total.
Proof.
  intros HD Ha. unfold get_annualized_return in Ha. cbn [analyzed account] in Ha.
  destruct (Nat.ltb_spec (length (dates acc)) 2) as [H | H].
  - exists F64.zero. unfold get_total_return. cbn [analyzed account].
    destruct (Nat.ltb_spec (length (total_assets acc)) 2); [ reflexivity | lia ].
  - destruct (get_total_return (analyzed acc)) as [ t | e ]; [ eauto | discriminate ].
Qed.

(** X11. On an object that holds its return series and whose annualized
    return is a float, [get_sharpe_ratio] does not raise and leaves the
    object as it is: the test for a zero volatility keeps the division
    from raising.  It is 0.0 below two returns and at zero volatility, and
    the excess annual return over the volatility otherwise. *)
Theorem sharpe_ratio_does_not_raise (risk_free_rate : float)
  (self : PerformanceAnalysis) (r : Series) (a : float) :
  strategy_returns self = Some r ->
  get_annualized_return self = Ok (PyFloat a) ->
  exists sharpe,
    get_sharpe_ratio risk_free_rate self = Ok (PyFloat sharpe, self)
    /\ (pd.len r < 2 -> sharpe = F64.zero)
    /\ ((nanstd (pd.values r) * F64.sqrt F64.lit_252 == F64.zero)%f64 = true ->
        sharpe = F64.zero)
    /\ (2 <= pd.len r ->
        (nanstd (pd.values r) * F64.sqrt F64.lit_252 == F64.zero)%f64 = false ->
        sharpe = ((a / F64.hundred - risk_free_rate)
                  / (nanstd (pd.values r) * F64.sqrt F64.lit_252))%f64).
Proof.
  intros Hr Ha. eexists. split; [ exact (sharpe_ratio_of_float _ self r a Hr Ha) | ].
  cbv zeta. destruct (Nat.ltb_spec (pd.len r) 2) as [H | H].
  - split; [ reflexivity | split; [ reflexivity | intros; lia ] ].
  - split; [ intros; lia | ].
    destruct (nanstd (pd.values r) * F64.sqrt F64.lit_252 == F64.zero)%f64;
      split; intros; try reflexivity; discriminate.
Qed.

(** X12. The summary returns on no object: the Calmar ratio is among its
    metrics, and that one raises.  On a ledger the constructor accepts,
    when the annualized return is a float, the total return, the Sharpe
    ratio and the volatility return and leave the object as it is, and the
    Calmar ratio and with it the summary raise the [AttributeError] of the
    missing [get_max_drawdown]. *)
Theorem summary_stops_at_the_calmar_ratio :
  (forall self, raises (get_performance_summary self))
  /\ (forall (acc : Account) (a : float),
         1 <= length (total_assets acc) ->
         length (dates acc) = length (total_assets acc) ->
         get_annualized_return (analyzed acc) = Ok (PyFloat a) ->
         let self := analyzed acc in
         exists total sharpe volatility,
           get_total_return self = Ok total
           /\ get_sharpe_ratio F64.lit_0_02 self = Ok (PyFloat sharpe, self)
           /\ get_volatility self = Ok (volatility, self)
           /\ get_calmar_ratio self = Raise (AttributeError "get_max_drawdown")
           /\ get_performance_summary self
              = Raise (AttributeError "get_max_drawdown")).
Proof.
  split; [ exact summary_raises | ].
  intros acc a H1 HD Ha self.
  destruct (total_return_of_annualized acc (PyFloat a) HD Ha) as [total Ht].
  pose proof (sharpe_ratio_of_float F64.lit_0_02 self (daily_returns acc) a
                eq_refl Ha) as Hs.
  pose proof (volatility_value self (daily_returns acc) eq_refl) as Hv.
  do 3 eexists.
  split; [ exact Ht | split; [ exact Hs | split; [ exact Hv | split ] ] ].
  - exact (get_calmar_ratio_attribute_error self (PyFloat a) (F64.abs a) Ha eq_refl).
  - exact (summary_stops_at_calmar self _ _ _ _ Ht Ha Hs Hv).
Qed.

(** X13. On a ledger with one dated asset value, whatever the value is, the
    constructor succeeds and the total return, the annualized return, the
    Sharpe ratio and the volatility are 0.0; the Calmar ratio and the
    summary raise the [AttributeError] of the missing
    [get_max_drawdown]. *)
Theorem summary_of_single_observation (acc : Account) :
  length (total_assets acc) = 1 ->
  length (dates acc) = 1 ->
  let self := analyzed acc in
  init acc = Ok self
  /\ get_total_return self = Ok F64.zero
  /\ get_annualized_return self = Ok (PyFloat F64.zero)
  /\ get_sharpe_ratio F64.lit_0_02 self = Ok (PyFloat F64.zero, self)
  /\ get_volatility self = Ok (F64.zero, self)
  /\ get_calmar_ratio self = Raise (AttributeError "get_max_drawdown")
  /\ get_performance_summary self = Raise (AttributeError "get_max_drawdown").
Proof.
  intros HA HD self.
  assert (H1 : 1 <= length (total_assets acc)) by lia.
  assert (HD' : length (dates acc) = length (total_assets acc)) by lia.
  assert (Hlen : pd.len (daily_returns acc) = 1)
    by (rewrite daily_returns_length; assumption).
  assert (Ht : get_total_return self = Ok F64.zero).
  { unfold get_total_return. cbn [self analyzed account]. now rewrite HA. }
  assert (Ha : get_annualized_return self = Ok (PyFloat F64.zero)).
  { unfold get_annualized_return. cbn [self analyzed account]. now rewrite HD. }
  pose proof (sharpe_ratio_of_float F64.lit_0_02 self (daily_returns acc) F64.zero
                eq_refl Ha) as Hs.
  pose proof (volatility_value self (daily_returns acc) eq_refl) as Hv.
  rewrite Hlen in Hs, Hv. cbn [Nat.ltb Nat.leb] in Hs, Hv.
  split; [ now apply init_analyzed | ].
  split; [ exact Ht | split; [ exact Ha | split; [ exact Hs | split; [ exact Hv | split ] ] ] ].
  - exact (get_calmar_ratio_attribute_error self (PyFloat F64.zero) F64.zero Ha eq_refl).
  - exact (summary_stops_at_calmar self _ _ _ _ Ht Ha Hs Hv).
Qed.

(** X14. On a ledger the constructor accepts with two or more asset values
    of which the first is zero, every metric that goes through the total
    return raises [ZeroDivisionError], and so does the summary; the
    volatility, which does not, returns. *)
Theorem zero_initial_asset_propagates (acc : Account) :
  2 <= length (total_assets acc) ->
  length (dates acc) = length (total_assets acc) ->
  (nth 0 (total_assets acc) F64.nan == F64.zero)%f64 = true ->
  let self := analyzed acc in
  init acc = Ok self
  /\ get_annualized_return self = Raise ZeroDivisionError
  /\ get_sharpe_ratio F64.lit_0_02 self = Raise ZeroDivisionError
  /\ get_calmar_ratio self = Raise ZeroDivisionError
  /\ get_performance_summary self = Raise ZeroDivisionError
  /\ exists v, get_volatility self = Ok (v, self).
Proof.
  intros H2 HD Hz self.
  assert (Ht : get_total_return self = Raise ZeroDivisionError).
  { unfold get_total_return. cbn [self analyzed account].
    destruct (Nat.ltb_spec (length (total_assets acc)) 2); [ lia | ].
    unfold py_truediv. now rewrite Hz. }
  assert (Ha : get_annualized_return self = Raise ZeroDivisionError).
  { unfold get_annualized_return. cbn [self analyzed account].
    destruct (Nat.ltb_spec (length (dates acc)) 2); [ lia | ].
    fold self. now rewrite Ht. }
  split; [ apply init_analyzed; auto; lia | ].
  split; [ exact Ha | ].
  split.
  { unfold get_sharpe_ratio.
    rewrite (ensure_returns_present self (daily_returns acc) eq_refl). cbn [bind].
    rewrite daily_returns_length.
    destruct (Nat.ltb_spec (length (total_assets acc)) 2); [ lia | ].
    now rewrite Ha. }
  split; [ unfold get_calmar_ratio; now rewrite Ha | ].
  split; [ unfold get_performance_summary; now rewrite Ht | ].
  eexists. exact (volatility_value self (daily_returns acc) eq_refl).
Qed.

End ReturnMetrics.

Lemma sharpe_ratio_does_not_raise_witness :
  let self := analyzed (ledger [1; 2; 3]%Z [100; 110; 121]%Z []) in
  exists sharpe,
    @get_sharpe_ratio example_runtime F64.lit_0_02 self = Ok (PyFloat sharpe, self).
Proof.
  pose (self := analyzed (ledger [1; 2; 3]%Z [100; 110; 121]%Z [])).
  assert (Ha : @get_annualized_return example_runtime self
               = Ok (PyFloat (S754_finite false 7545029785322006 (-23))))
    by (apply float_result_eq; vm_compute; reflexivity).
  destruct (@sharpe_ratio_does_not_raise example_runtime F64.lit_0_02 self
              (daily_returns (account self)) _ eq_refl Ha) as (sharpe & H & _).
  exists sharpe. exact H.
Defined.

Lemma summary_stops_at_the_calmar_ratio_witness :
  let self := analyzed (ledger [1; 2; 3]%Z [100; 110; 121]%Z []) in
  @get_calmar_ratio example_runtime self = Raise (AttributeError "get_max_drawdown")
  /\ @get_performance_summary example_runtime self
     = Raise (AttributeError "get_max_drawdown").
Proof.
  pose (acc := ledger [1; 2; 3]%Z [100; 110; 121]%Z []).
  assert (Ha : @get_annualized_return example_runtime (analyzed acc)
               = Ok (PyFloat (S754_finite false 7545029785322006 (-23))))
    by (apply float_result_eq; vm_compute; reflexivity).
  assert (H1 : 1 <= length (total_assets acc)) by (simpl; lia).
  destruct (proj2 (@summary_stops_at_the_calmar_ratio example_runtime) acc _
              H1 eq_refl Ha) as (t & s & v & _ & _ & _ & Hc & H).
  split; [ exact Hc | exact H ].
Defined.

Lemma summary_of_single_observation_witness :
  let self := analyzed (ledger [1]%Z [0]%Z []) in
  @get_volatility example_runtime self = Ok (F64.zero, self)
  /\ @get_performance_summary example_runtime self
     = Raise (AttributeError "get_max_drawdown").
Proof.
  destruct (@summary_of_single_observation example_runtime
              (ledger [1]%Z [0]%Z []) eq_refl eq_refl)
    as (_ & _ & _ & _ & Hv & _ & H).
  split; [ exact Hv | exact H ].
Defined.

Lemma zero_initial_asset_propagates_witness :
  let self := analyzed (ledger [1; 2; 3]%Z [0; 100; 110]%Z []) in
  @get_annualized_return example_runtime self = Raise ZeroDivisionError
  /\ @get_performance_summary example_runtime self = Raise ZeroDivisionError.
Proof.
  assert (H2 : 2 <= length (total_assets (ledger [1; 2; 3]%Z [0; 100; 110]%Z [])))
    by (simpl; lia).
  destruct (@zero_initial_asset_propagates example_runtime
              (ledger [1; 2; 3]%Z [0; 100; 110]%Z []) H2 eq_refl eq_refl)
    as (_ & Ha & _ & _ & Hs & _).
  split; [ exact Ha | exact Hs ].
Defined.

(** ** The plotted return series *)

(** X15. The return series of the plotting class, once computed, is kept:
    a second call returns the same series and the same object.  On a ledger
    without an asset value that is [<= 0], the return series of the analyzer
    is that series clamped to [-0.11, 0.11]. *)
Theorem plotted_returns_are_the_unclamped_returns
  (acc : Account) (v : Series) (self' : Visualization.BacktestVisualization) :
  Visualization.calculate_returns (Visualization.init acc None) = Ok (v, self') ->
  Visualization.calculate_returns self' = Ok (v, self')
  /\ (1 <= length (total_assets acc) ->
      any_nonpositive (total_assets acc) = false ->
      init acc = Ok (analyzed acc)
      /\ strategy_returns (analyzed acc)
         = Some (pd.clip (F64.opp F64.lit_0_11) F64.lit_0_11 v)).
Proof.
  unfold Visualization.calculate_returns, Visualization.init, pd.mk_Series.
  cbn [Visualization.strategy_returns Visualization.account].
  destruct (Nat.eqb_spec (length (total_assets acc)) (length (dates acc))) as [E | E];
    cbn [bind]; [ | discriminate ].
  intros H. inversion H; subst. clear H. split; [ reflexivity | ].
  intros H1 Hany. split; [ apply init_analyzed; auto | ].
  cbn [analyzed strategy_returns]. unfold daily_returns, sanitized_assets.
  now rewrite Hany.
Qed.

Lemma plotted_returns_are_the_unclamped_returns_witness :
  let acc := ledger [1; 2; 3]%Z [100; 110; 121]%Z [] in
  exists v,
    init acc = Ok (analyzed acc)
    /\ strategy_returns (analyzed acc)
       = Some (pd.clip (F64.opp F64.lit_0_11) F64.lit_0_11 v).
Proof.
  pose (acc := ledger [1; 2; 3]%Z [100; 110; 121]%Z []).
  assert (H1 : 1 <= length (total_assets acc)) by (simpl; lia).
  assert (Hany : any_nonpositive (total_assets acc) = false)
    by (vm_compute; reflexivity).
  destruct (plotted_returns_are_the_unclamped_returns acc _ _ eq_refl)
    as [_ H].
  eexists. exact (H H1 Hany).
Defined.
